(** * PDFQASystem: a shallow embedding of the PDF question-answering notebook

    The notebook [Build_a_PDF_powered_QA_system.ipynb] defines one class,
    [PDFQASystem], that sequences four third-party collaborators (PyPDF2,
    LangChain's text splitter, FAISS with HuggingFace embeddings, and the
    Groq chat model behind a RetrievalQA chain).  The class is embedded here
    method by method.  A method is a computation over the object's fields
    that may return, raise, print, and call a collaborator; what a
    collaborator answers is not decided by the notebook, so it is read from
    a [World].

    The notebook writes [try] without its colon in [initialize_qa_chain];
    the block is read as the [try:] it is indented as. *)

From Stdlib Require Import String Ascii List ZArith Bool Arith Lia.
From stdpp Require Import base strings gmap.
From Equations Require Import Equations.
Import ListNotations.

Local Open Scope string_scope.
Local Open Scope list_scope.

(** ** Python values the class handles *)

(** An object that is raised: its class name, [str(e)], and whether its
    class derives from [Exception], which is what [except Exception]
    tests.  [KeyboardInterrupt], [SystemExit] and [GeneratorExit] derive
    from [BaseException] only. *)
Record Exception := mkRaised {
  exc_class : string;
  exc_msg : string;
  is_Exception : bool
}.

(** An instance of a class under [Exception]. *)
Definition mkException (class msg : string) : Exception := mkRaised class msg true.

Definition ValueError (msg : string) : Exception := mkException "ValueError" msg.

Definition KeyboardInterrupt : Exception := mkRaised "KeyboardInterrupt" "" false.

(** How a call ends: it returns a value or an exception leaves it. *)
Inductive Outcome (A : Type) : Type :=
| Returned (a : A)
| Raised (e : Exception).
Arguments Returned {A} a.
Arguments Raised {A} e.

(** Truth value of a [str]-or-[None]: [None] and [""] are falsy. *)
Definition truthy (v : option string) : bool :=
  match v with
  | Some s => negb (String.eqb s "")
  | None => false
  end.

(** ** The collaborators' objects, as the notebook constructs them *)

(** [HuggingFaceEmbeddings(model_name=...)] *)
Record HuggingFaceEmbeddings := mkEmbeddings { model_name : string }.

(** [RecursiveCharacterTextSplitter(chunk_size=..., chunk_overlap=...,
    length_function=len)] *)
Record RecursiveCharacterTextSplitter := mkSplitter {
  ts_chunk_size : Z;
  ts_chunk_overlap : Z
}.

(** [FAISS.from_texts(texts, embeddings)] *)
Record FAISS := mkFAISS {
  vs_texts : list string;
  vs_embeddings : HuggingFaceEmbeddings
}.

(** [ChatGroq(model=..., temperature=..., max_tokens=..., groq_api_key=...)] *)
Record ChatGroq := mkChatGroq {
  model : string;
  temperature : Z;
  max_tokens : option Z;
  llm_groq_api_key : string
}.

(** [vector_store.as_retriever(search_kwargs={"k": ...})] *)
Record Retriever := mkRetriever {
  rt_vector_store : FAISS;
  search_k : Z
}.

(** [RetrievalQA.from_chain_type(llm=..., chain_type=..., retriever=...)] *)
Record RetrievalQA := mkRetrievalQA {
  qa_llm : ChatGroq;
  chain_type : string;
  retriever : Retriever
}.

(** ** The object's fields *)

Record PDFQASystem := mkPDFQASystem {
  pdf_path : string;
  chunk_size : Z;
  chunk_overlap : Z;
  groq_api_key : option string;
  vector_store : option FAISS;
  qa_chain : option RetrievalQA;
  embeddings : HuggingFaceEmbeddings;
  text_splitter : RecursiveCharacterTextSplitter
}.

Definition set_vector_store (v : option FAISS) (s : PDFQASystem) : PDFQASystem :=
  mkPDFQASystem (pdf_path s) (chunk_size s) (chunk_overlap s) (groq_api_key s)
                v (qa_chain s) (embeddings s) (text_splitter s).

Definition set_qa_chain (c : option RetrievalQA) (s : PDFQASystem) : PDFQASystem :=
  mkPDFQASystem (pdf_path s) (chunk_size s) (chunk_overlap s) (groq_api_key s)
                (vector_store s) c (embeddings s) (text_splitter s).

(** The three stages of the object's life, read off its two optional
    fields: the chain is what [query] tests, the store is what
    [initialize_qa_chain] tests. *)
Inductive State := Uninitialized | IndexBuilt | Ready.

Definition state_of (s : PDFQASystem) : State :=
  match qa_chain s, vector_store s with
  | Some _, _ => Ready
  | None, Some _ => IndexBuilt
  | None, None => Uninitialized
  end.

(** ** What a run does besides returning *)

Inductive Event :=
| EvOpenPdf (path : string)                       (* open(path, 'rb'), PdfReader(file), .pages *)
| EvExtractText (page_no : nat)                   (* page.extract_text() *)
| EvSplitText (ts : RecursiveCharacterTextSplitter) (text : string)
| EvFromTexts (texts : list string) (emb : HuggingFaceEmbeddings)
| EvEnvironGet (name : string)                    (* os.environ.get(name) *)
| EvNewEmbeddings (emb : HuggingFaceEmbeddings)
| EvNewSplitter (ts : RecursiveCharacterTextSplitter)
| EvNewChatGroq (llm : ChatGroq)
| EvFromChainType (chain : RetrievalQA)
| EvRun (chain : RetrievalQA) (question : string) (* qa_chain.run(question) *)
| EvPrint (line : string).

(** The part of a run the notebook does not decide.  A constructor either
    fails with an exception or yields the object built from its arguments;
    [split_text] and [run] answer with a value of their own. *)
Record World := mkWorld {
  open_pdf : string -> Exception + list (Exception + string);
  environ : gmap string string;
  new_embeddings : HuggingFaceEmbeddings -> option Exception;
  new_splitter : RecursiveCharacterTextSplitter -> option Exception;
  split_text : RecursiveCharacterTextSplitter -> string -> Exception + list string;
  from_texts : list string -> HuggingFaceEmbeddings -> option Exception;
  new_ChatGroq : ChatGroq -> option Exception;
  from_chain_type : RetrievalQA -> option Exception;
  chain_run : RetrievalQA -> string -> Exception + string
}.

(** ** Method bodies as computations

    A computation starts from the object's fields and ends with an
    outcome, the fields as the run left them (assignments made before an
    exception stay), and the events of the run in order. *)
Definition M (A : Type) : Type :=
  PDFQASystem -> Outcome A * PDFQASystem * list Event.

Definition outcome {A} (r : Outcome A * PDFQASystem * list Event) : Outcome A :=
  fst (fst r).
Definition self_after {A} (r : Outcome A * PDFQASystem * list Event) : PDFQASystem :=
  snd (fst r).
Definition events {A} (r : Outcome A * PDFQASystem * list Event) : list Event :=
  snd r.

Definition ret {A} (a : A) : M A := fun s => (Returned a, s, []).

Definition raise {A} (e : Exception) : M A := fun s => (Raised e, s, []).

Definition bind {A B} (m : M A) (k : A -> M B) : M B :=
  fun s =>
    match m s with
    | (Returned a, s1, ev1) =>
        match k a s1 with
        | (o, s2, ev2) => (o, s2, ev1 ++ ev2)
        end
    | (Raised e, s1, ev1) => (Raised e, s1, ev1)
    end.

(** [try: body except Exception as e: handler e]: the handler runs for an
    instance of [Exception]; anything else raised by the body leaves the
    statement. *)
Definition try_except {A} (body : M A) (handler : Exception -> M A) : M A :=
  fun s =>
    match body s with
    | (Returned a, s1, ev1) => (Returned a, s1, ev1)
    | (Raised e, s1, ev1) =>
        if is_Exception e then
          match handler e s1 with
          | (o, s2, ev2) => (o, s2, ev1 ++ ev2)
          end
        else (Raised e, s1, ev1)
    end.

Definition get_self : M PDFQASystem := fun s => (Returned s, s, []).
Definition modify_self (f : PDFQASystem -> PDFQASystem) : M unit :=
  fun s => (Returned tt, f s, []).
Definition emit (e : Event) : M unit := fun s => (Returned tt, s, [e]).
Definition print (line : string) : M unit := emit (EvPrint line).

Declare Scope py_scope.
Delimit Scope py_scope with py.
Notation "x <- c ;; k" := (bind c (fun x => k))
  (at level 100, c at next level, right associativity) : py_scope.
Notation "c ;; k" := (bind c (fun _ => k))
  (at level 100, right associativity) : py_scope.
Local Open Scope py_scope.

(** A collaborator call that answers with a value or an exception. *)
Definition call {A} (e : Event) (answer : Exception + A) : M A :=
  emit e ;;
  match answer with
  | inl exn => raise exn
  | inr a => ret a
  end.

(** A collaborator's constructor: the object of its arguments, unless it
    fails. *)
Definition construct {A} (e : Event) (failure : option Exception) (obj : A) : M A :=
  emit e ;;
  match failure with
  | Some exn => raise exn
  | None => ret obj
  end.

Section Methods.

Variable w : World.

(** [__init__(self, pdf_path, chunk_size=1000, chunk_overlap=200,
    groq_api_key=None)]: an omitted keyword is [None] here and takes the
    default of the signature.  The run starts from the fields assigned
    before the two constructors are called. *)
Definition __init__ (pdf_path : string) (chunk_size chunk_overlap : option Z)
    (groq_api_key : option string) : Outcome PDFQASystem * list Event :=
  let chunk_size := default 1000%Z chunk_size in
  let chunk_overlap := default 200%Z chunk_overlap in
  let emb := mkEmbeddings "sentence-transformers/all-MiniLM-L6-v2" in
  let ts := mkSplitter chunk_size chunk_overlap in
  match new_embeddings w emb with
  | Some exn => (Raised exn, [EvNewEmbeddings emb])
  | None =>
      match new_splitter w ts with
      | Some exn => (Raised exn, [EvNewEmbeddings emb; EvNewSplitter ts])
      | None =>
          (Returned (mkPDFQASystem pdf_path chunk_size chunk_overlap groq_api_key
                                   None None emb ts),
           [EvNewEmbeddings emb; EvNewSplitter ts])
      end
  end.

(** The [for page in pdf_reader.pages: text += page.extract_text()] loop. *)
Fixpoint extract_pages (pages : list (Exception + string)) (page_no : nat)
    (text : string) : M string :=
  match pages with
  | [] => ret text
  | page :: rest =>
      t <- call (EvExtractText page_no) page ;;
      extract_pages rest (S page_no) (text ++ t)
  end.

Definition extract_text_from_pdf : M (option string) :=
  try_except
    (self <- get_self ;;
     pages <- call (EvOpenPdf (pdf_path self)) (open_pdf w (pdf_path self)) ;;
     text <- extract_pages pages 0 "" ;;
     ret (Some text))
    (fun e =>
       print ("Error reading PDF: " ++ exc_msg e) ;;
       ret None).

Definition create_vector_store : M bool :=
  text <- extract_text_from_pdf ;;
  match text with
  | None => ret false
  | Some text =>
      if negb (truthy (Some text)) then ret false
      else
        self <- get_self ;;
        texts <- call (EvSplitText (text_splitter self) text)
                      (split_text w (text_splitter self) text) ;;
        vs <- construct (EvFromTexts texts (embeddings self))
                        (from_texts w texts (embeddings self))
                        (mkFAISS texts (embeddings self)) ;;
        modify_self (set_vector_store (Some vs)) ;;
        ret true
  end.

(** [self.groq_api_key or os.environ.get("GROQ_API_KEY")]: the
    environment is read only when the field is falsy. *)
Definition api_key_or_environ (self : PDFQASystem) : M (option string) :=
  if truthy (groq_api_key self) then ret (groq_api_key self)
  else
    emit (EvEnvironGet "GROQ_API_KEY") ;;
    ret (environ w !! "GROQ_API_KEY").

Definition missing_key_msg : string :=
  "GROQ_API_KEY not found. Set the environment variable or pass groq_api_key to PDFQASystem.".

(** The [try] block of [initialize_qa_chain]; its handler returns
    [False] from the method, which is the [inl] here. *)
Definition groq_llm (self : PDFQASystem) : M (bool + ChatGroq) :=
  try_except
    (api_key <- api_key_or_environ self ;;
     match api_key with
     | Some key =>
         if negb (truthy (Some key)) then raise (ValueError missing_key_msg)
         else
           let llm := mkChatGroq "llama-3.3-70b-versatile" 0 None key in
           llm <- construct (EvNewChatGroq llm) (new_ChatGroq w llm) llm ;;
           ret (inr llm)
     | None => raise (ValueError missing_key_msg)
     end)
    (fun e =>
       print ("Error initializing Groq LLM: " ++ exc_msg e) ;;
       ret (inl false)).

Definition initialize_qa_chain : M bool :=
  self <- get_self ;;
  match vector_store self with
  | None =>
      print "Vector store not initialized. Run create_vector_store first." ;;
      ret false
  | Some vs =>
      r <- groq_llm self ;;
      match r with
      | inl b => ret b
      | inr llm =>
          let chain := mkRetrievalQA llm "stuff" (mkRetriever vs 3) in
          chain <- construct (EvFromChainType chain) (from_chain_type w chain) chain ;;
          modify_self (set_qa_chain (Some chain)) ;;
          ret true
      end
  end.

Definition query (question : string) : M (option string) :=
  self <- get_self ;;
  match qa_chain self with
  | None =>
      print "QA chain not initialized. Run initialize_qa_chain first." ;;
      ret None
  | Some chain =>
      try_except
        (response <- call (EvRun chain question) (chain_run w chain question) ;;
         ret (Some response))
        (fun e =>
           print ("Error processing query: " ++ exc_msg e) ;;
           ret None)
  end.

End Methods.

(** ** The chunker of the design

    [split_text] belongs to LangChain; the notebook only constructs the
    splitter and calls it, so the [World] answers for it above.  The
    chunker below is the one the design document describes, and the
    reassembly is the one its round-trip property names. *)

(** Modelled from the spec: the body of the text splitter, which the
    notebook imports and does not define.  Section 4.2: chunks of target
    length [size]; each chunk after the first starts [overlap] characters
    before the previous chunk's end; the final chunk may be shorter than
    [size]; empty text gives no chunk.  The contract is
    [0 <= overlap < size]; outside it no chunk after the first is
    produced. *)
Equations? chunks (size overlap : nat) (text : list ascii) : list (list ascii)
  by wf (length text) lt :=
  chunks size overlap [] := [];
  chunks size overlap (c :: text) with le_lt_dec (length (c :: text)) size := {
    | left _ := [c :: text]
    | right Hlong with lt_dec overlap size := {
        | left Hvalid :=
            firstn size (c :: text)
              :: chunks size overlap (skipn (size - overlap) (c :: text))
        | right _ := [firstn size (c :: text)] } }.
Proof.
  rewrite length_skipn. simpl in *. lia.
Qed.

(** Modelled from the spec: reassembly "by removing overlaps" (section 8),
    which the notebook has no code for: the first chunk whole, then every
    later chunk without its first [overlap] characters. *)
Definition reassemble (overlap : nat) (cs : list (list ascii)) : list ascii :=
  match cs with
  | [] => []
  | first :: later => first ++ concat (map (skipn overlap) later)
  end.

(** Modelled from the spec: the chunker on Python strings, with the
    splitter's two integers as its parameters. *)
Definition chunk_text (ts : RecursiveCharacterTextSplitter) (text : string) : list string :=
  map string_of_list_ascii
      (chunks (Z.to_nat (ts_chunk_size ts)) (Z.to_nat (ts_chunk_overlap ts))
              (list_ascii_of_string text)).

(** Modelled from the spec: reassembly on Python strings. *)
Definition reassemble_text (ts : RecursiveCharacterTextSplitter) (cs : list string) : string :=
  string_of_list_ascii
    (reassemble (Z.to_nat (ts_chunk_overlap ts)) (map list_ascii_of_string cs)).

(** ** Vocabulary of the statements *)

(** A run fails with an exception of class [cls]: the exception leaves the
    method and reaches the caller. *)
Definition fails_with {A} (cls : string) (r : Outcome A * PDFQASystem * list Event) : Prop :=
  exists e, outcome r = Raised e /\ exc_class e = cls.

(** The exception that stops the extraction of a document, if any: the one
    of opening it, or the one of the first page that does not extract. *)
Fixpoint first_failure (pages : list (Exception + string)) : option Exception :=
  match pages with
  | [] => None
  | inl e :: _ => Some e
  | inr _ :: rest => first_failure rest
  end.

Definition extraction_failure (w : World) (path : string) : option Exception :=
  match open_pdf w path with
  | inl e => Some e
  | inr pages => first_failure pages
  end.

(** Events of reading the document, and events of the later build stages. *)
Definition is_read_event (ev : Event) : bool :=
  match ev with
  | EvOpenPdf _ | EvExtractText _ => true
  | _ => false
  end.

Definition is_chunk_or_index_event (ev : Event) : bool :=
  match ev with
  | EvSplitText _ _ | EvFromTexts _ _ => true
  | _ => false
  end.

(** Events of retrieval and generation: a run of the chain. *)
Definition is_run_event (ev : Event) : bool :=
  match ev with
  | EvRun _ _ => true
  | _ => false
  end.

(** No event of a kind occurs in a run. *)
Definition no_event (kind : Event -> bool) (evs : list Event) : bool :=
  forallb (fun ev => negb (kind ev)) evs.

(** The environment variable the notebook reads, and the model it
    constructs from a key. *)
Definition KEY : string := "GROQ_API_KEY".

Definition groq_model (key : string) : ChatGroq :=
  mkChatGroq "llama-3.3-70b-versatile" 0 None key.

Definition set_groq_api_key (k : option string) (s : PDFQASystem) : PDFQASystem :=
  mkPDFQASystem (pdf_path s) (chunk_size s) (chunk_overlap s) k
                (vector_store s) (qa_chain s) (embeddings s) (text_splitter s).

(** The caller's three operations on an object, and sequences of them,
    each against the world of its moment. *)
Inductive Op :=
| OpCreateVectorStore
| OpInitializeQaChain
| OpQuery (question : string).

Definition run_op (w : World) (op : Op) (s : PDFQASystem) : PDFQASystem :=
  match op with
  | OpCreateVectorStore => self_after (create_vector_store w s)
  | OpInitializeQaChain => self_after (initialize_qa_chain w s)
  | OpQuery question => self_after (query w question s)
  end.

Fixpoint run_ops (calls : list (World * Op)) (s : PDFQASystem) : PDFQASystem :=
  match calls with
  | [] => s
  | (w, op) :: rest => run_ops rest (run_op w op s)
  end.

Fixpoint run_queries (calls : list (World * string)) (s : PDFQASystem) : PDFQASystem :=
  match calls with
  | [] => s
  | (w, question) :: rest => run_queries rest (self_after (query w question s))
  end.

(** ** A concrete world and concrete objects *)

Definition demo_pages : list (Exception + string) :=
  [inr "Machine translation converts text between languages. ";
   inr "It can be rule-based, statistical, or neural."].

Definition demo_world : World :=
  mkWorld
    (fun path =>
       if String.eqb path "paper.pdf" then inr demo_pages
       else if String.eqb path "empty.pdf" then inr [inr ""]
       else inl (mkException "FileNotFoundError" "No such file or directory"))
    {[ "GROQ_API_KEY" := "gsk_demo" ]}
    (fun _ => None)
    (fun _ => None)
    (fun ts text => inr (chunk_text ts text))
    (fun _ _ => None)
    (fun _ => None)
    (fun _ => None)
    (fun _ question =>
       if String.eqb question "" then inl (mkException "APIError" "rate limit exceeded")
       else inr "Machine translation.").

Definition with_environ (env : gmap string string) (w : World) : World :=
  mkWorld (open_pdf w) env (new_embeddings w) (new_splitter w) (split_text w)
          (from_texts w) (new_ChatGroq w) (from_chain_type w) (chain_run w).

(** The object [PDFQASystem(path)] of the notebook's [main]. *)
Definition fresh (path : string) : PDFQASystem :=
  mkPDFQASystem path 1000 200 None None None
                (mkEmbeddings "sentence-transformers/all-MiniLM-L6-v2")
                (mkSplitter 1000 200).

Definition built : PDFQASystem :=
  self_after (create_vector_store demo_world (fresh "paper.pdf")).

Definition ready : PDFQASystem :=
  self_after (initialize_qa_chain demo_world built).

(** ** The notebook's other cells *)

(** The Colab cell before the class:
    [try: from google.colab import userdata;
          os.environ["GROQ_API_KEY"] = userdata.get("GROQ_API_KEY")
     except ImportError: pass].
    What the import and [userdata.get] answer, and which exceptions are
    instances of [ImportError], is the interpreter's and Colab's to say. *)
Record Colab := mkColab {
  import_userdata : option Exception;
  userdata_get : string -> Exception + string;
  is_ImportError : Exception -> bool
}.

Definition colab_cell (c : Colab) (env : gmap string string)
    : Outcome unit * gmap string string :=
  let body :=
    match import_userdata c with
    | Some e => (Raised e, env)
    | None =>
        match userdata_get c "GROQ_API_KEY" with
        | inl e => (Raised e, env)
        | inr value => (Returned tt, <["GROQ_API_KEY" := value]> env)
        end
    end in
  match body with
  | (Raised e, env') =>
      if is_ImportError c e then (Returned tt, env') else (Raised e, env')
  | (Returned _, env') => (Returned tt, env')
  end.

(** The newline of [print(f"\nQ: {question}")]. *)
Definition nl : string := String (ascii_of_nat 10) "".

(** The [for question in questions] loop of [main]. *)
Fixpoint ask (w : World) (questions : list string) : M unit :=
  match questions with
  | [] => ret tt
  | question :: rest =>
      response <- query w question ;;
      (match response with
       | None => ret tt
       | Some answer =>
           if truthy (Some answer) then
             print (nl ++ "Q: " ++ question) ;;
             print ("A: " ++ answer)
           else ret tt
       end) ;;
      ask w rest
  end.

Definition main_pdf_path : string := "/content/Machine Translation (1).pdf".

Definition main_questions : list string :=
  ["What is the main topic of the document?"; "Summarize the key points."].

(** [main] from the line after the construction of [qa_system]. *)
Definition main_on (w : World) : M unit :=
  created <- create_vector_store w ;;
  if negb created then
    print "Failed to create vector store" ;;
    ret tt
  else
    initialized <- initialize_qa_chain w ;;
    if negb initialized then
      print "Failed to initialize QA chain" ;;
      ret tt
    else ask w main_questions.

(** [main()]: [PDFQASystem(pdf_path, groq_api_key=None)], then the rest on
    the object constructed. *)
Definition main (w : World) : Outcome unit * list Event :=
  match __init__ w main_pdf_path None None None with
  | (Raised e, evs) => (Raised e, evs)
  | (Returned qa_system, evs) =>
      (outcome (main_on w qa_system), evs ++ events (main_on w qa_system))
  end.

(** ** More vocabulary *)

(** The stages in their order. *)
Definition rank (st : State) : nat :=
  match st with
  | Uninitialized => 0
  | IndexBuilt => 1
  | Ready => 2
  end.

Definition is_print_event (ev : Event) : bool :=
  match ev with
  | EvPrint _ => true
  | _ => false
  end.

(** Events of resolving the key and constructing the model and the chain. *)
Definition is_model_event (ev : Event) : bool :=
  match ev with
  | EvEnvironGet _ | EvNewChatGroq _ | EvFromChainType _ => true
  | _ => false
  end.

Definition is_environ_event (ev : Event) : bool :=
  match ev with
  | EvEnvironGet _ => true
  | _ => false
  end.

(** The value of [self.groq_api_key or os.environ.get("GROQ_API_KEY")]. *)
Definition resolved_key (w : World) (s : PDFQASystem) : option string :=
  if truthy (groq_api_key s) then groq_api_key s else environ w !! KEY.

(** The chain [initialize_qa_chain] constructs over a store with a key. *)
Definition chain_over (vs : FAISS) (key : string) : RetrievalQA :=
  mkRetrievalQA (groq_model key) "stuff" (mkRetriever vs 3).

(** What the methods keep true of an object from its construction on. *)
Definition well_formed (s : PDFQASystem) : Prop :=
  embeddings s = mkEmbeddings "sentence-transformers/all-MiniLM-L6-v2"
  /\ text_splitter s = mkSplitter (chunk_size s) (chunk_overlap s)
  /\ (forall vs, vector_store s = Some vs -> vs_embeddings vs = embeddings s)
  /\ (forall chain,
        qa_chain s = Some chain ->
        vector_store s <> None
        /\ exists vs key,
             chain = chain_over vs key
             /\ key <> ""
             /\ vs_embeddings vs = embeddings s).

(** A run of the chain that [query] survives: the run returns, or what it
    raises is an instance of [Exception]. *)
Definition survives (w : World) (chain : RetrievalQA) (question : string) : bool :=
  match chain_run w chain question with
  | inl e => is_Exception e
  | inr _ => true
  end.

(** What the run of one question of [main] leaves on the output. *)
Definition question_lines (w : World) (chain : RetrievalQA) (question : string)
    : list string :=
  match chain_run w chain question with
  | inl e => [("Error processing query: " ++ exc_msg e)%string]
  | inr answer =>
      if String.eqb answer "" then []
      else [(nl ++ "Q: " ++ question)%string; ("A: " ++ answer)%string]
  end.

(** A world for [main]: the document of [main] is there, the first
    question hits a rate limit, the second is answered. *)
Definition main_world : World :=
  mkWorld
    (fun path =>
       if String.eqb path main_pdf_path then inr demo_pages
       else inl (mkException "FileNotFoundError" "No such file or directory"))
    {[ "GROQ_API_KEY" := "gsk_demo" ]}
    (fun _ => None)
    (fun _ => None)
    (fun ts text => inr (chunk_text ts text))
    (fun _ _ => None)
    (fun _ => None)
    (fun _ => None)
    (fun _ question =>
       if String.eqb question "Summarize the key points."
       then inr "Machine translation."
       else inl (mkException "APIError" "rate limit exceeded")).

(** A world in which the collaborators of the later stages fail. *)
Definition failing_world : World :=
  mkWorld
    (fun _ => inr demo_pages)
    (environ demo_world)
    (fun _ => None)
    (fun _ => None)
    (fun _ _ => inl (mkException "ValueError" "cannot split"))
    (fun _ _ => Some (mkException "IndexError" "list index out of range"))
    (fun _ => Some (mkException "GroqError" "invalid api key"))
    (fun _ => Some (mkException "ValidationError" "bad chain"))
    (fun _ _ => inl (mkException "APIError" "rate limit exceeded")).

(** A document whose second page does not extract. *)
Definition torn_world : World :=
  mkWorld
    (fun _ => inr [inr "Machine translation"; inl (mkException "PdfReadError" "bad xref");
                   inr " never read"])
    (environ demo_world) (new_embeddings demo_world) (new_splitter demo_world)
    (split_text demo_world) (from_texts demo_world) (new_ChatGroq demo_world)
    (from_chain_type demo_world) (chain_run demo_world).

(** A world in which the user interrupts every call that can be
    interrupted. *)
Definition interrupted_world : World :=
  mkWorld
    (fun _ => inl KeyboardInterrupt)
    (environ demo_world)
    (fun _ => None)
    (fun _ => None)
    (split_text demo_world)
    (fun _ _ => None)
    (fun _ => Some KeyboardInterrupt)
    (fun _ => None)
    (fun _ _ => inl KeyboardInterrupt).

(** The world of [main] with the user interrupting the first question. *)
Definition interrupted_main_world : World :=
  mkWorld
    (open_pdf main_world) (environ main_world) (new_embeddings main_world)
    (new_splitter main_world) (split_text main_world) (from_texts main_world)
    (new_ChatGroq main_world) (from_chain_type main_world)
    (fun _ _ => inl KeyboardInterrupt).

(** Colab with the secret set, and a machine without Colab. *)
Definition in_colab : Colab :=
  mkColab None (fun _ => inr "gsk_colab")
          (fun e => String.eqb (exc_class e) "ModuleNotFoundError").

Definition no_colab : Colab :=
  mkColab (Some (mkException "ModuleNotFoundError" "No module named 'google.colab'"))
          (fun _ => inr "")
          (fun e => String.eqb (exc_class e) "ModuleNotFoundError").

(** ** Running the monad in proofs *)

Ltac run_py :=
  simpl in *;
  unfold bind, ret, raise, try_except, get_self, modify_self, emit, print,
    call, construct, outcome, self_after, events in *;
  simpl in *.

(** ** Reading the document *)

Lemma extract_pages_self pages n text s :
  self_after (extract_pages pages n text s) = s.
Proof.
  revert n text. induction pages as [|page rest IH]; intros n text; [reflexivity|].
  specialize (IH (S n)). destruct page as [e|t]; [reflexivity|].
  specialize (IH (text ++ t)%string). run_py.
  destruct (extract_pages rest (S n) (text ++ t)%string s) as [[o s'] ev].
  exact IH.
Qed.

Lemma extract_pages_events pages n text s :
  forallb is_read_event (events (extract_pages pages n text s)) = true.
Proof.
  revert n text. induction pages as [|page rest IH]; intros n text; [reflexivity|].
  specialize (IH (S n)). destruct page as [e|t]; [reflexivity|].
  specialize (IH (text ++ t)%string). run_py.
  destruct (extract_pages rest (S n) (text ++ t)%string s) as [[o s'] ev].
  exact IH.
Qed.

Lemma extract_pages_outcome pages n text s :
  match first_failure pages with
  | Some e => outcome (extract_pages pages n text s) = Raised e
  | None => exists t, outcome (extract_pages pages n text s) = Returned t
  end.
Proof.
  revert n text. induction pages as [|page rest IH]; intros n text.
  - simpl. eexists. reflexivity.
  - specialize (IH (S n)). destruct page as [e|t]; [reflexivity|].
    specialize (IH (text ++ t)%string). simpl first_failure. run_py.
    destruct (extract_pages rest (S n) (text ++ t)%string s) as [[o s'] ev].
    exact IH.
Qed.

(** Every run of the extractor, by what opening and the pages answer. *)
Lemma extract_text_run w s :
  extract_text_from_pdf w s
    = match open_pdf w (pdf_path s) with
      | inl e =>
          if is_Exception e then
            (Returned None, s,
             [EvOpenPdf (pdf_path s); EvPrint ("Error reading PDF: " ++ exc_msg e)])
          else (Raised e, s, [EvOpenPdf (pdf_path s)])
      | inr pages =>
          match extract_pages pages 0 "" s with
          | (Returned text, s1, evs) =>
              (Returned (Some text), s1, EvOpenPdf (pdf_path s) :: evs)
          | (Raised e, s1, evs) =>
              if is_Exception e then
                (Returned None, s1,
                 EvOpenPdf (pdf_path s)
                   :: evs ++ [EvPrint ("Error reading PDF: " ++ exc_msg e)])
              else (Raised e, s1, EvOpenPdf (pdf_path s) :: evs)
          end
      end.
Proof.
  unfold extract_text_from_pdf. run_py.
  destruct (open_pdf w (pdf_path s)) as [e|pages].
  - simpl. destruct (is_Exception e); reflexivity.
  - simpl.
    destruct (extract_pages pages 0 "" s) as [[[text|e] s1] evs]; simpl;
      [rewrite app_nil_r; reflexivity|].
    destruct (is_Exception e); reflexivity.
Qed.

Lemma extract_text_self w s :
  self_after (extract_text_from_pdf w s) = s.
Proof.
  rewrite extract_text_run.
  destruct (open_pdf w (pdf_path s)) as [e|pages];
    [destruct (is_Exception e); reflexivity|].
  pose proof (extract_pages_self pages 0 "" s) as Hs.
  destruct (extract_pages pages 0 "" s) as [[[t|e] s'] ev];
    [exact Hs|destruct (is_Exception e); exact Hs].
Qed.

(** What the extractor ends with, by the failure of the document: an
    instance of [Exception] is turned into [None], any other exception
    leaves the method. *)
Lemma extract_text_outcome w s :
  match extraction_failure w (pdf_path s) with
  | Some e =>
      outcome (extract_text_from_pdf w s)
        = if is_Exception e then Returned None else Raised e
  | None => exists text, outcome (extract_text_from_pdf w s) = Returned (Some text)
  end.
Proof.
  rewrite extract_text_run. unfold extraction_failure.
  destruct (open_pdf w (pdf_path s)) as [e|pages];
    [destruct (is_Exception e); reflexivity|].
  pose proof (extract_pages_outcome pages 0 "" s) as Ho.
  destruct (first_failure pages) as [e|].
  - destruct (extract_pages pages 0 "" s) as [[o s'] ev].
    unfold outcome in Ho. simpl in Ho. subst o.
    destruct (is_Exception e); reflexivity.
  - destruct Ho as [t Ho].
    destruct (extract_pages pages 0 "" s) as [[o s'] ev].
    unfold outcome in Ho. simpl in Ho. subst o. exists t. reflexivity.
Qed.

Lemma extract_text_raised w s e :
  outcome (extract_text_from_pdf w s) = Raised e <->
  extraction_failure w (pdf_path s) = Some e /\ is_Exception e = false.
Proof.
  pose proof (extract_text_outcome w s) as Ho.
  destruct (extraction_failure w (pdf_path s)) as [e0|].
  - rewrite Ho. destruct (is_Exception e0) eqn:Hclass; split.
    + discriminate.
    + intros [[= ->] Hfalse]. rewrite Hclass in Hfalse. discriminate.
    + intros [= ->]. split; [reflexivity|exact Hclass].
    + intros [[= ->] _]. reflexivity.
  - destruct Ho as [t ->]. split; [discriminate|]. intros [Hnone _]. discriminate.
Qed.

Lemma extract_text_failure w s e :
  extraction_failure w (pdf_path s) = Some e ->
  is_Exception e = true ->
  exists evs,
    extract_text_from_pdf w s
      = (Returned None, s, evs ++ [EvPrint ("Error reading PDF: " ++ exc_msg e)])
    /\ forallb is_read_event evs = true.
Proof.
  unfold extraction_failure. intros Hfail Hclass. rewrite extract_text_run.
  destruct (open_pdf w (pdf_path s)) as [e0|pages].
  - injection Hfail as ->. rewrite Hclass.
    exists [EvOpenPdf (pdf_path s)]. split; reflexivity.
  - pose proof (extract_pages_self pages 0 "" s) as Hs.
    pose proof (extract_pages_events pages 0 "" s) as Hev.
    pose proof (extract_pages_outcome pages 0 "" s) as Ho.
    rewrite Hfail in Ho.
    destruct (extract_pages pages 0 "" s) as [[o s'] ev].
    unfold outcome, self_after, events in *. simpl in *. subst o s'.
    rewrite Hclass.
    exists (EvOpenPdf (pdf_path s) :: ev). split; [reflexivity|exact Hev].
Qed.

(** Whatever the extractor ends with, what it did before any message was
    reading. *)
Lemma extract_text_reads w s :
  exists reads lines,
    events (extract_text_from_pdf w s) = reads ++ map EvPrint lines
    /\ forallb is_read_event reads = true.
Proof.
  rewrite extract_text_run.
  destruct (open_pdf w (pdf_path s)) as [e|pages].
  - destruct (is_Exception e).
    + exists [EvOpenPdf (pdf_path s)], [("Error reading PDF: " ++ exc_msg e)%string].
      split; reflexivity.
    + exists [EvOpenPdf (pdf_path s)], []. split; reflexivity.
  - pose proof (extract_pages_events pages 0 "" s) as Hev.
    destruct (extract_pages pages 0 "" s) as [[[t|e] s'] ev];
      unfold events in *; simpl in *.
    + exists (EvOpenPdf (pdf_path s) :: ev), []. rewrite app_nil_r.
      split; [reflexivity|exact Hev].
    + destruct (is_Exception e).
      * exists (EvOpenPdf (pdf_path s) :: ev),
               [("Error reading PDF: " ++ exc_msg e)%string].
        split; [reflexivity|exact Hev].
      * exists (EvOpenPdf (pdf_path s) :: ev), []. rewrite app_nil_r.
        split; [reflexivity|exact Hev].
Qed.

Lemma extract_text_success_events w s text :
  outcome (extract_text_from_pdf w s) = Returned (Some text) ->
  forallb is_read_event (events (extract_text_from_pdf w s)) = true.
Proof.
  rewrite extract_text_run.
  destruct (open_pdf w (pdf_path s)) as [e|pages];
    [destruct (is_Exception e); discriminate|].
  pose proof (extract_pages_events pages 0 "" s) as Hev.
  destruct (extract_pages pages 0 "" s) as [[[t|e] s'] ev];
    [intros _; exact Hev|destruct (is_Exception e); discriminate].
Qed.

(** ** Building the index *)

(** Every run of [create_vector_store], by what the extractor ends with
    and what the splitter and the index builder answer. *)
Lemma create_vector_store_run w s :
  create_vector_store w s
    = match outcome (extract_text_from_pdf w s) with
      | Returned (Some text) =>
          if String.eqb text "" then
            (Returned false, s, events (extract_text_from_pdf w s))
          else
            match split_text w (text_splitter s) text with
            | inl e =>
                (Raised e, s,
                 events (extract_text_from_pdf w s)
                   ++ [EvSplitText (text_splitter s) text])
            | inr texts =>
                match from_texts w texts (embeddings s) with
                | Some e =>
                    (Raised e, s,
                     events (extract_text_from_pdf w s)
                       ++ [EvSplitText (text_splitter s) text;
                           EvFromTexts texts (embeddings s)])
                | None =>
                    (Returned true,
                     set_vector_store (Some (mkFAISS texts (embeddings s))) s,
                     events (extract_text_from_pdf w s)
                       ++ [EvSplitText (text_splitter s) text;
                           EvFromTexts texts (embeddings s)])
                end
            end
      | Returned None => (Returned false, s, events (extract_text_from_pdf w s))
      | Raised e => (Raised e, s, events (extract_text_from_pdf w s))
      end.
Proof.
  pose proof (extract_text_self w s) as Hs.
  unfold create_vector_store. run_py.
  destruct (extract_text_from_pdf w s) as [[o s'] reads]. simpl in *. subst s'.
  destruct o as [[text|]|e]; simpl; rewrite ?app_nil_r; try reflexivity.
  destruct (String.eqb text ""); simpl; rewrite ?app_nil_r; [reflexivity|].
  destruct (split_text w (text_splitter s) text) as [e|texts]; simpl; [reflexivity|].
  destruct (from_texts w texts (embeddings s)) as [e|]; simpl; reflexivity.
Qed.

(** When the extractor gives nothing to build from, the method stops
    there: [False], the fields as they were, the extractor's events. *)
Lemma create_vector_store_stops w s text :
  outcome (extract_text_from_pdf w s) = Returned text ->
  truthy text = false ->
  create_vector_store w s = (Returned false, s, events (extract_text_from_pdf w s)).
Proof.
  intros Ho Hfalsy. rewrite create_vector_store_run, Ho.
  destruct text as [t|]; [|reflexivity].
  simpl in Hfalsy. destruct (String.eqb t ""); [reflexivity|discriminate].
Qed.

(** The store is assigned on the [True] path only. *)
Lemma create_vector_store_cases w s :
  (outcome (create_vector_store w s) = Returned true
   /\ exists texts,
        self_after (create_vector_store w s)
          = set_vector_store (Some (mkFAISS texts (embeddings s))) s)
  \/ ((outcome (create_vector_store w s) = Returned false
       \/ exists e, outcome (create_vector_store w s) = Raised e)
      /\ self_after (create_vector_store w s) = s).
Proof.
  rewrite create_vector_store_run.
  destruct (outcome (extract_text_from_pdf w s)) as [[t|]|e];
    [|right; split; [left|]; reflexivity
     |right; split; [right; eexists|]; reflexivity].
  destruct (String.eqb t ""); [right; split; [left|]; reflexivity|].
  destruct (split_text w (text_splitter s) t) as [e|texts];
    [right; split; [right; eexists|]; reflexivity|].
  destruct (from_texts w texts (embeddings s)) as [e|];
    [right; split; [right; eexists|]; reflexivity|].
  left. split; [reflexivity|]. exists texts. reflexivity.
Qed.

(** ** Initializing the chain *)

Lemma truthy_false (v : option string) :
  truthy v = false <-> v = None \/ v = Some "".
Proof.
  destruct v as [t|]; simpl.
  - destruct (String.eqb_spec t ""); simpl; split; intros H;
      try discriminate; try (right; congruence); try reflexivity.
    destruct H as [H|H]; congruence.
  - split; [left|]; reflexivity.
Qed.

Lemma truthy_true (v : option string) :
  truthy v = true <-> exists key, v = Some key /\ key <> "".
Proof.
  destruct v as [t|]; simpl.
  - destruct (String.eqb_spec t ""); simpl; split; intros H; try discriminate.
    + destruct H as (key & [= ->] & Hne). contradiction.
    + exists t. split; [reflexivity|assumption].
    + reflexivity.
  - split; [discriminate|]. intros (key & H & _). discriminate.
Qed.

(** No usable key in the field and none in the environment: the method
    reads the environment, prints the missing-key message and returns
    [False]; no model is constructed and no field is assigned. *)
Lemma initialize_without_key w s vs :
  vector_store s = Some vs ->
  truthy (groq_api_key s) = false ->
  truthy (environ w !! KEY) = false ->
  initialize_qa_chain w s
    = (Returned false, s,
       [EvEnvironGet KEY; EvPrint ("Error initializing Groq LLM: " ++ missing_key_msg)]).
Proof.
  intros Hvs Hfield Henv. unfold initialize_qa_chain, groq_llm, api_key_or_environ.
  run_py. rewrite Hvs, Hfield. simpl. fold KEY.
  destruct (environ w !! KEY) as [key|] eqn:Hk; simpl in *; [|reflexivity].
  rewrite Henv. reflexivity.
Qed.

(** No usable key in the field, a usable one in the environment: the
    model is constructed with the environment's key. *)
Lemma initialize_with_environ_key w s vs key :
  vector_store s = Some vs ->
  truthy (groq_api_key s) = false ->
  environ w !! KEY = Some key ->
  key <> "" ->
  exists rest,
    events (initialize_qa_chain w s)
      = EvEnvironGet KEY :: EvNewChatGroq (groq_model key) :: rest.
Proof.
  intros Hvs Hfield Henv Hne. unfold initialize_qa_chain, groq_llm, api_key_or_environ.
  run_py. rewrite Hvs, Hfield. simpl. fold KEY. rewrite Henv. simpl.
  destruct (String.eqb_spec key ""); [contradiction|]. simpl.
  fold (groq_model key).
  destruct (new_ChatGroq w (groq_model key)) as [e|]; simpl;
    [destruct (is_Exception e); eexists; reflexivity|].
  destruct (from_chain_type w _); simpl; eexists; reflexivity.
Qed.

(** The chain is assigned on the [True] path only, and what is assigned
    is the chain over the object's store, with three chunks per question
    and the key the method resolved. *)
Lemma initialize_qa_chain_cases w s :
  (outcome (initialize_qa_chain w s) = Returned true
   /\ exists vs key,
        vector_store s = Some vs
        /\ key <> ""
        /\ (if truthy (groq_api_key s) then groq_api_key s = Some key
            else environ w !! KEY = Some key)
        /\ self_after (initialize_qa_chain w s)
           = set_qa_chain
               (Some (mkRetrievalQA (groq_model key) "stuff" (mkRetriever vs 3))) s)
  \/ ((outcome (initialize_qa_chain w s) = Returned false
       \/ exists e, outcome (initialize_qa_chain w s) = Raised e)
      /\ self_after (initialize_qa_chain w s) = s).
Proof.
  unfold initialize_qa_chain, groq_llm, api_key_or_environ. run_py. fold KEY.
  destruct (vector_store s) as [vs|] eqn:Hvs; simpl;
    [|right; split; [left|]; reflexivity].
  destruct (truthy (groq_api_key s)) eqn:Hfield; simpl.
  - apply truthy_true in Hfield as (key & Hkey & Hne). rewrite Hkey. simpl.
    destruct (String.eqb_spec key ""); [contradiction|]. simpl.
    fold (groq_model key).
    destruct (new_ChatGroq w (groq_model key)) as [e|]; simpl;
      [destruct (is_Exception e);
       [right; split; [left|]; reflexivity
       |right; split; [right; eexists|]; reflexivity]|].
    destruct (from_chain_type w _); simpl;
      [right; split; [right; eexists|]; reflexivity|].
    left. split; [reflexivity|]. exists vs, key. auto.
  - destruct (environ w !! KEY) as [key|] eqn:Henv; simpl;
      [|right; split; [left|]; reflexivity].
    destruct (String.eqb_spec key ""); simpl;
      [right; split; [left|]; reflexivity|].
    fold (groq_model key).
    destruct (new_ChatGroq w (groq_model key)) as [e|]; simpl;
      [destruct (is_Exception e);
       [right; split; [left|]; reflexivity
       |right; split; [right; eexists|]; reflexivity]|].
    destruct (from_chain_type w _); simpl;
      [right; split; [right; eexists|]; reflexivity|].
    left. split; [reflexivity|]. exists vs, key. auto.
Qed.

(** ** Asking a question *)

Lemma query_without_chain w question s :
  qa_chain s = None ->
  query w question s
    = (Returned None, s,
       [EvPrint "QA chain not initialized. Run initialize_qa_chain first."]).
Proof.
  intros Hnone. unfold query. run_py. rewrite Hnone. reflexivity.
Qed.

Lemma query_with_chain w question s chain :
  qa_chain s = Some chain ->
  query w question s
    = match chain_run w chain question with
      | inr response => (Returned (Some response), s, [EvRun chain question])
      | inl e =>
          if is_Exception e then
            (Returned None, s,
             [EvRun chain question;
              EvPrint ("Error processing query: " ++ exc_msg e)])
          else (Raised e, s, [EvRun chain question])
      end.
Proof.
  intros Hchain. unfold query. run_py. rewrite Hchain. simpl.
  destruct (chain_run w chain question) as [e|response]; [|reflexivity].
  simpl. destruct (is_Exception e); reflexivity.
Qed.

Lemma query_self w question s :
  self_after (query w question s) = s.
Proof.
  destruct (qa_chain s) as [chain|] eqn:Hc.
  - rewrite (query_with_chain w question s chain Hc).
    destruct (chain_run w chain question) as [e|response]; [|reflexivity].
    destruct (is_Exception e); reflexivity.
  - rewrite (query_without_chain w question s Hc). reflexivity.
Qed.

Lemma state_ready_iff s :
  state_of s = Ready <-> exists chain, qa_chain s = Some chain.
Proof.
  unfold state_of. destruct (qa_chain s) as [c|], (vector_store s) as [v|];
    split; intros H; try discriminate; try reflexivity;
    try (eexists; reflexivity); destruct H as [c' H]; discriminate.
Qed.

(** ** The chunker *)

Example chunks_of_empty_text size overlap : chunks size overlap [] = [].
Proof. reflexivity. Qed.

(** The scenario of the design document: 50-character chunks that share
    10 characters with their neighbour. *)
Example chunk_text_scenario :
  chunk_text (mkSplitter 50 10)
    "Machine translation converts text between languages. It can be rule-based, statistical, or neural."
  = ["Machine translation converts text between language";
     "n languages. It can be rule-based, statistical, or";
     "stical, or neural."].
Proof. vm_compute. reflexivity. Qed.

(** What is left of the chunks after the overlap is removed from each is
    the text after its first [overlap] characters. *)
Lemma chunks_without_overlap size overlap text :
  overlap < size ->
  concat (map (skipn overlap) (chunks size overlap text)) = skipn overlap text.
Proof.
  intros Hvalid. funelim (chunks size overlap text); simpl.
  - rewrite skipn_nil. reflexivity.
  - rewrite app_nil_r. reflexivity.
  - match goal with IH : _ -> concat _ = _ |- _ => rewrite (IH Hvalid) end.
    rewrite skipn_skipn.
    replace (overlap + (size - overlap)) with size by lia.
    rewrite <- (firstn_skipn size (c :: text)) at 3.
    rewrite skipn_app, length_firstn.
    replace (overlap - Nat.min size (length (c :: text))) with 0 by lia.
    reflexivity.
  - contradiction.
Qed.

Lemma reassemble_chunks size overlap text :
  overlap < size ->
  reassemble overlap (chunks size overlap text) = text.
Proof.
  intros Hvalid. destruct text as [|c text]; [reflexivity|].
  simp chunks. destruct (le_lt_dec (length (c :: text)) size) as [Hshort|Hlong]; simpl.
  - rewrite app_nil_r. reflexivity.
  - destruct (lt_dec overlap size) as [Hv|Hn]; [|contradiction]. simpl.
    pose proof (chunks_without_overlap size overlap
                  (skipn (size - overlap) (c :: text)) Hvalid) as Hrest.
    simpl in Hrest. rewrite Hrest. rewrite skipn_skipn.
    replace (overlap + (size - overlap)) with size by lia.
    apply (firstn_skipn size (c :: text)).
Qed.

Lemma list_ascii_of_string_inverse (cs : list (list ascii)) :
  map list_ascii_of_string (map string_of_list_ascii cs) = cs.
Proof.
  induction cs as [|c cs IH]; simpl; [reflexivity|].
  rewrite list_ascii_of_string_of_list_ascii, IH. reflexivity.
Qed.

Lemma read_events_are_not_build_events evs :
  forallb is_read_event evs = true ->
  no_event is_chunk_or_index_event evs = true.
Proof.
  unfold no_event. induction evs as [|ev evs IH]; simpl; [reflexivity|].
  intros H. apply andb_prop in H as [Hev Hrest]. rewrite (IH Hrest).
  destruct ev; simpl in *; try discriminate; reflexivity.
Qed.

Lemma no_event_app kind evs1 evs2 :
  no_event kind (evs1 ++ evs2) = no_event kind evs1 && no_event kind evs2.
Proof. unfold no_event. apply forallb_app. Qed.

(** * The claims *)

(** ** C1: [query] before the chain is initialized *)

(** C1, as stated, does not hold: the object of the notebook's [main],
    just constructed, is not Ready, and [query] on it does not fail with
    a PreconditionError. *)
Lemma query_before_ready_does_not_raise :
  state_of (fresh "paper.pdf") <> Ready
  /\ ~ fails_with "PreconditionError"
       (query demo_world "What is the main topic of the document?" (fresh "paper.pdf")).
Proof.
  split; [discriminate|].
  intros (e & Hraised & _). vm_compute in Hraised. discriminate.
Qed.

(** C1, amended: for every question, [query] on an object that is not
    Ready raises nothing; it prints that the chain is not initialized and
    returns [None], assigns no field, and does not run the chain (no
    retrieval, no generation). *)
Theorem query_before_ready w question s :
  state_of s <> Ready ->
  query w question s
    = (Returned None, s,
       [EvPrint "QA chain not initialized. Run initialize_qa_chain first."])
  /\ no_event is_run_event (events (query w question s)) = true.
Proof.
  intros Hstate.
  assert (qa_chain s = None) as Hnone.
  { destruct (qa_chain s) as [chain|] eqn:Hc; [|reflexivity].
    exfalso. apply Hstate. apply state_ready_iff. exists chain. exact Hc. }
  rewrite (query_without_chain w question s Hnone). split; reflexivity.
Qed.

Lemma query_before_ready_witness :
  state_of built <> Ready
  /\ query demo_world "Summarize the key points." built
     = (Returned None, built,
        [EvPrint "QA chain not initialized. Run initialize_qa_chain first."]).
Proof.
  split; [discriminate|].
  apply (query_before_ready demo_world "Summarize the key points." built).
  discriminate.
Defined.

(** ** C2: a document without text *)

(** C2, as stated, does not hold: the text of [empty.pdf] is empty and
    [create_vector_store] does not fail with an EmptyContentError. *)
Lemma empty_text_does_not_raise :
  outcome (extract_text_from_pdf demo_world (fresh "empty.pdf")) = Returned (Some "")
  /\ ~ fails_with "EmptyContentError" (create_vector_store demo_world (fresh "empty.pdf")).
Proof.
  split; [reflexivity|].
  intros (e & Hraised & _). vm_compute in Hraised. discriminate.
Qed.

(** C2, amended: for every document whose extracted text is empty,
    [create_vector_store] raises nothing and returns [False]; nothing
    happens but the reading of the document (no split, no index, no
    message), and no field is assigned: an object that was Uninitialized
    still is, its vector store still absent. *)
Theorem create_vector_store_empty_text w s :
  outcome (extract_text_from_pdf w s) = Returned (Some "") ->
  create_vector_store w s = (Returned false, s, events (extract_text_from_pdf w s))
  /\ forallb is_read_event (events (create_vector_store w s)) = true
  /\ (state_of s = Uninitialized ->
      state_of (self_after (create_vector_store w s)) = Uninitialized
      /\ vector_store (self_after (create_vector_store w s)) = None).
Proof.
  intros Hempty.
  pose proof (create_vector_store_stops w s (Some "") Hempty eq_refl) as Hrun.
  rewrite Hrun. split; [reflexivity|]. split.
  - apply (extract_text_success_events w s "" Hempty).
  - cbn [self_after fst snd]. intros Hstate. split; [exact Hstate|].
    unfold state_of in Hstate.
    destruct (qa_chain s), (vector_store s); try discriminate; reflexivity.
Qed.

Lemma create_vector_store_empty_text_witness :
  create_vector_store demo_world (fresh "empty.pdf")
    = (Returned false, fresh "empty.pdf", [EvOpenPdf "empty.pdf"; EvExtractText 0])
  /\ vector_store (self_after (create_vector_store demo_world (fresh "empty.pdf"))) = None.
Proof.
  destruct (create_vector_store_empty_text demo_world (fresh "empty.pdf") eq_refl)
    as (Hrun & _ & Hstate).
  split; [exact Hrun|]. apply Hstate. reflexivity.
Defined.

(** ** C3: no credential *)

(** C3, as stated, does not hold: with the index built, no key passed and
    an empty environment, [initialize_qa_chain] does not fail with a
    CredentialError. *)
Lemma missing_credential_does_not_raise :
  state_of built = IndexBuilt
  /\ groq_api_key built = None
  /\ environ (with_environ ∅ demo_world) !! KEY = None
  /\ ~ fails_with "CredentialError" (initialize_qa_chain (with_environ ∅ demo_world) built).
Proof.
  repeat split; try reflexivity.
  intros (e & Hraised & _). vm_compute in Hraised. discriminate.
Qed.

(** C3, amended: for every object in IndexBuilt, if no key was passed and
    the environment has none, [initialize_qa_chain] raises nothing: it
    reads the environment, prints the missing-key message and returns
    [False], without constructing a model; the object stays in
    IndexBuilt, its vector store unchanged and its chain absent. *)
Theorem initialize_without_credential w s :
  state_of s = IndexBuilt ->
  groq_api_key s = None ->
  environ w !! KEY = None ->
  initialize_qa_chain w s
    = (Returned false, s,
       [EvEnvironGet KEY; EvPrint ("Error initializing Groq LLM: " ++ missing_key_msg)])
  /\ state_of (self_after (initialize_qa_chain w s)) = IndexBuilt
  /\ vector_store (self_after (initialize_qa_chain w s)) = vector_store s
  /\ qa_chain (self_after (initialize_qa_chain w s)) = None.
Proof.
  intros Hstate Hfield Henv.
  assert (exists vs, vector_store s = Some vs /\ qa_chain s = None) as (vs & Hvs & Hchain).
  { unfold state_of in Hstate.
    destruct (qa_chain s), (vector_store s) as [vs|]; try discriminate.
    exists vs. split; reflexivity. }
  assert (initialize_qa_chain w s
          = (Returned false, s,
             [EvEnvironGet KEY;
              EvPrint ("Error initializing Groq LLM: " ++ missing_key_msg)])) as Hrun.
  { apply (initialize_without_key w s vs Hvs).
    - rewrite Hfield. reflexivity.
    - rewrite Henv. reflexivity. }
  rewrite Hrun. cbn [self_after fst snd]. auto.
Qed.

Lemma initialize_without_credential_witness :
  initialize_qa_chain (with_environ ∅ demo_world) built
    = (Returned false, built,
       [EvEnvironGet KEY; EvPrint ("Error initializing Groq LLM: " ++ missing_key_msg)])
  /\ state_of (self_after (initialize_qa_chain (with_environ ∅ demo_world) built))
     = IndexBuilt
  /\ vector_store (self_after (initialize_qa_chain (with_environ ∅ demo_world) built))
     = vector_store built
  /\ qa_chain (self_after (initialize_qa_chain (with_environ ∅ demo_world) built)) = None.
Proof.
  apply (initialize_without_credential (with_environ ∅ demo_world) built);
    reflexivity.
Defined.

(** ** C4: a document that cannot be read *)

(** C4, as stated, does not hold: [missing.pdf] cannot be opened and the
    extractor does not fail with an ExtractionError. *)
Lemma unreadable_document_does_not_raise :
  extraction_failure demo_world (pdf_path (fresh "missing.pdf"))
    = Some (mkException "FileNotFoundError" "No such file or directory")
  /\ ~ fails_with "ExtractionError" (extract_text_from_pdf demo_world (fresh "missing.pdf")).
Proof.
  split; [reflexivity|].
  intros (e & Hraised & _). vm_compute in Hraised. discriminate.
Qed.

(** C4, amended: for every document that cannot be opened or has a page
    that does not extract, the failure being an instance of [Exception],
    the extractor raises nothing: after the reads it prints "Error
    reading PDF: " with the exception's text and returns [None];
    [create_vector_store] then returns [False] with the same events, so
    without splitting or indexing anything, and assigns no field.  And
    whatever the document and the object, a run of [create_vector_store]
    that does not return [True] tells the caller so, by returning [False]
    or by an exception that leaves it, and leaves every field, hence the
    state, as it was. *)
Theorem unreadable_document_aborts_build w s e :
  extraction_failure w (pdf_path s) = Some e ->
  is_Exception e = true ->
  (exists reads,
     forallb is_read_event reads = true
     /\ extract_text_from_pdf w s
        = (Returned None, s, reads ++ [EvPrint ("Error reading PDF: " ++ exc_msg e)])
     /\ create_vector_store w s
        = (Returned false, s, reads ++ [EvPrint ("Error reading PDF: " ++ exc_msg e)]))
  /\ no_event is_chunk_or_index_event (events (create_vector_store w s)) = true
  /\ (forall w' s',
        outcome (create_vector_store w' s') = Returned true
        \/ ((outcome (create_vector_store w' s') = Returned false
             \/ exists e', outcome (create_vector_store w' s') = Raised e')
            /\ self_after (create_vector_store w' s') = s'
            /\ state_of (self_after (create_vector_store w' s')) = state_of s')).
Proof.
  intros Hfail Hclass.
  destruct (extract_text_failure w s e Hfail Hclass) as (reads & Hextract & Hreads).
  assert (create_vector_store w s
          = (Returned false, s, reads ++ [EvPrint ("Error reading PDF: " ++ exc_msg e)]))
    as Hbuild.
  { rewrite (create_vector_store_stops w s None).
    - rewrite Hextract. reflexivity.
    - rewrite Hextract. reflexivity.
    - reflexivity. }
  split; [exists reads; auto|]. split.
  - rewrite Hbuild. cbn [events snd]. rewrite no_event_app.
    rewrite (read_events_are_not_build_events reads Hreads). reflexivity.
  - intros w' s'.
    destruct (create_vector_store_cases w' s') as [[Htrue _]|[Hfailed Hself]];
      [left; exact Htrue|right].
    split; [exact Hfailed|]. split; [exact Hself|]. rewrite Hself. reflexivity.
Qed.

Lemma unreadable_document_aborts_build_witness :
  extract_text_from_pdf demo_world (fresh "missing.pdf")
    = (Returned None, fresh "missing.pdf",
       [EvOpenPdf "missing.pdf"; EvPrint "Error reading PDF: No such file or directory"])
  /\ create_vector_store demo_world (fresh "missing.pdf")
     = (Returned false, fresh "missing.pdf",
        [EvOpenPdf "missing.pdf"; EvPrint "Error reading PDF: No such file or directory"])
  /\ no_event is_chunk_or_index_event
       (events (create_vector_store demo_world (fresh "missing.pdf"))) = true.
Proof.
  destruct (unreadable_document_aborts_build demo_world (fresh "missing.pdf")
              (mkException "FileNotFoundError" "No such file or directory")
              eq_refl eq_refl)
    as (_ & Hnone & _).
  split; [reflexivity|]. split; [reflexivity|exact Hnone].
Defined.

(** ** What the operations keep *)



Lemma run_op_keeps_ready w op s :
  state_of s = Ready -> state_of (run_op w op s) = Ready.
Proof.
  intros Hready. destruct op as [| |question]; simpl.
  - destruct (create_vector_store_cases w s) as [[_ [texts ->]]|[_ ->]];
      [|exact Hready].
    apply state_ready_iff in Hready as [chain Hchain].
    apply state_ready_iff. exists chain. exact Hchain.
  - destruct (initialize_qa_chain_cases w s)
      as [[_ (vs & key & _ & _ & _ & ->)]|[_ ->]]; [|exact Hready].
    apply state_ready_iff. eexists. reflexivity.
  - rewrite query_self. exact Hready.
Qed.

Lemma run_queries_self queries s :
  run_queries queries s = s.
Proof.
  revert s. induction queries as [|[w question] rest IH]; intros s; simpl;
    [reflexivity|].
  rewrite query_self. apply IH.
Qed.

(** ** C5: the defaults *)



(** ** C6: chunking and reassembling *)

(** C6: for every splitter with [0 <= chunk_overlap < chunk_size] and every
    text, of any length, the chunks of the text, put together again with
    the overlap removed from every chunk after the first, are the text. *)
Theorem chunk_reassemble_roundtrip ts text :
  (0 <= ts_chunk_overlap ts < ts_chunk_size ts)%Z ->
  reassemble_text ts (chunk_text ts text) = text.
Proof.
  intros [Hnonneg Hlt]. unfold reassemble_text, chunk_text.
  rewrite list_ascii_of_string_inverse.
  rewrite reassemble_chunks.
  - apply string_of_list_ascii_of_string.
  - apply Z2Nat.inj_lt; lia.
Qed.

Lemma chunk_reassemble_roundtrip_witness :
  reassemble_text (mkSplitter 50 10)
    ["Machine translation converts text between language";
     "n languages. It can be rule-based, statistical, or";
     "stical, or neural."]
  = "Machine translation converts text between languages. It can be rule-based, statistical, or neural.".
Proof.
  rewrite <- chunk_text_scenario.
  apply (chunk_reassemble_roundtrip (mkSplitter 50 10)). simpl. lia.
Defined.

(** ** C7: the answer *)

(** C7: for every question put to a Ready object, [query] runs the chain
    once; when the run succeeds, [query] returns its response, the very
    string; when it fails with an instance of [Exception], [query]
    returns [None] after printing "Error processing query: " with the
    exception's text; an exception of another kind leaves [query] as it
    is. *)
Theorem query_returns_response_verbatim w question s :
  state_of s = Ready ->
  exists chain,
    qa_chain s = Some chain
    /\ (forall response,
          chain_run w chain question = inr response ->
          query w question s = (Returned (Some response), s, [EvRun chain question]))
    /\ (forall e,
          chain_run w chain question = inl e ->
          is_Exception e = true ->
          query w question s
            = (Returned None, s,
               [EvRun chain question;
                EvPrint ("Error processing query: " ++ exc_msg e)]))
    /\ (forall e,
          chain_run w chain question = inl e ->
          is_Exception e = false ->
          query w question s = (Raised e, s, [EvRun chain question])).
Proof.
  intros Hready. apply state_ready_iff in Hready as [chain Hchain].
  exists chain. split; [exact Hchain|].
  rewrite (query_with_chain w question s chain Hchain).
  split; [|split]; intros x Hrun; rewrite Hrun; try reflexivity;
    intros ->; reflexivity.
Qed.

Lemma query_returns_response_verbatim_witness :
  outcome (query demo_world "What is the main topic of the document?" ready)
    = Returned (Some "Machine translation.")
  /\ query demo_world "" ready
     = (Returned None, ready,
        [EvRun (mkRetrievalQA (groq_model "gsk_demo") "stuff"
                  (mkRetriever
                     (mkFAISS
                        ["Machine translation converts text between languages. It can be rule-based, statistical, or neural."]
                        (mkEmbeddings "sentence-transformers/all-MiniLM-L6-v2"))
                     3))
               "";
         EvPrint "Error processing query: rate limit exceeded"]).
Proof.
  split.
  - destruct (query_returns_response_verbatim demo_world
                "What is the main topic of the document?" ready eq_refl)
      as (chain & Hchain & Hok & _).
    injection Hchain as <-. rewrite (Hok "Machine translation." eq_refl). reflexivity.
  - destruct (query_returns_response_verbatim demo_world "" ready eq_refl)
      as (chain & Hchain & _ & Hfail & _).
    injection Hchain as <-.
    apply (Hfail (mkException "APIError" "rate limit exceeded") eq_refl eq_refl).
Defined.

(** ** C8: Ready is never left *)

(** C8: once an object is Ready, it is Ready after every sequence of
    operations, in whatever worlds they run; and after every sequence of
    [query] calls, failed or not, the object is field for field what it
    was, so its vector store and its chain are set and unchanged. *)
Theorem ready_is_never_left s :
  state_of s = Ready ->
  (forall calls, state_of (run_ops calls s) = Ready)
  /\ (forall queries,
        run_queries queries s = s
        /\ vector_store (run_queries queries s) = vector_store s
        /\ qa_chain (run_queries queries s) = qa_chain s
        /\ qa_chain (run_queries queries s) <> None).
Proof.
  intros Hready. split.
  - intros calls. revert s Hready.
    induction calls as [|[w op] rest IH]; intros s Hready; simpl; [exact Hready|].
    apply IH. apply run_op_keeps_ready. exact Hready.
  - intros queries. rewrite run_queries_self. repeat split.
    apply state_ready_iff in Hready as [chain ->]. discriminate.
Qed.

Lemma ready_is_never_left_witness :
  state_of ready = Ready
  /\ state_of (run_ops [(demo_world, OpQuery "");
                        (with_environ ∅ demo_world, OpInitializeQaChain);
                        (demo_world, OpCreateVectorStore);
                        (demo_world, OpInitializeQaChain)] ready) = Ready
  /\ run_queries [(demo_world, "Summarize the key points."); (demo_world, "")] ready
     = ready.
Proof.
  destruct (ready_is_never_left ready eq_refl) as [Hops Hqueries].
  split; [reflexivity|]. split; [apply Hops|apply Hqueries].
Defined.

(** ** C9: what leaves [query] *)



(** ** C10: the empty key *)

(** C10: with the index built and [""] passed as the key,
    [initialize_qa_chain] returns and does what it does with no key
    passed: it reads the environment variable, constructs the model with
    the variable's value when that is a non-empty string, and stops on
    the missing-key message exactly when the variable is unset or
    empty. *)
Theorem empty_key_is_absent w s vs :
  vector_store s = Some vs ->
  groq_api_key s = Some "" ->
  (outcome (initialize_qa_chain w s)
     = outcome (initialize_qa_chain w (set_groq_api_key None s))
   /\ events (initialize_qa_chain w s)
      = events (initialize_qa_chain w (set_groq_api_key None s)))
  /\ (exists rest, events (initialize_qa_chain w s) = EvEnvironGet KEY :: rest)
  /\ (forall key,
        environ w !! KEY = Some key -> key <> "" ->
        exists rest,
          events (initialize_qa_chain w s)
            = EvEnvironGet KEY :: EvNewChatGroq (groq_model key) :: rest)
  /\ (initialize_qa_chain w s
        = (Returned false, s,
           [EvEnvironGet KEY;
            EvPrint ("Error initializing Groq LLM: " ++ missing_key_msg)])
      <-> (environ w !! KEY = None \/ environ w !! KEY = Some "")).
Proof.
  intros Hvs Hkey.
  assert (truthy (groq_api_key s) = false) as Hfalsy by (rewrite Hkey; reflexivity).
  assert (forall key, environ w !! KEY = Some key -> key <> "" ->
          exists rest, events (initialize_qa_chain w s)
                       = EvEnvironGet KEY :: EvNewChatGroq (groq_model key) :: rest)
    as Hfallback.
  { intros key Henv Hne. exact (initialize_with_environ_key w s vs key Hvs Hfalsy Henv Hne). }
  split; [|split; [|split; [exact Hfallback|]]].
  - unfold initialize_qa_chain, groq_llm, api_key_or_environ. run_py.
    rewrite Hvs, Hkey. simpl.
    destruct (environ w !! "GROQ_API_KEY") as [key|]; simpl; [|split; reflexivity].
    destruct (negb (negb (key =? "")%string)); simpl; [split; reflexivity|].
    destruct (new_ChatGroq w _) as [e|]; simpl;
      [destruct (is_Exception e); split; reflexivity|].
    destruct (from_chain_type w _); simpl; split; reflexivity.
  - destruct (truthy (environ w !! KEY)) eqn:Henv.
    + apply truthy_true in Henv as (key & Henv & Hne).
      destruct (Hfallback key Henv Hne) as [rest ->]. eexists. reflexivity.
    + rewrite (initialize_without_key w s vs Hvs Hfalsy Henv). eexists. reflexivity.
  - split.
    + intros Hrun. apply truthy_false.
      destruct (truthy (environ w !! KEY)) eqn:Henv; [|reflexivity].
      apply truthy_true in Henv as (key & Henv & Hne).
      destruct (Hfallback key Henv Hne) as [rest Hev].
      rewrite Hrun in Hev. discriminate.
    + intros Henv. apply truthy_false in Henv.
      exact (initialize_without_key w s vs Hvs Hfalsy Henv).
Qed.

Lemma empty_key_is_absent_witness :
  (exists rest,
     events (initialize_qa_chain demo_world (set_groq_api_key (Some "") built))
       = EvEnvironGet KEY :: EvNewChatGroq (groq_model "gsk_demo") :: rest)
  /\ initialize_qa_chain (with_environ {[ KEY := "" ]} demo_world)
       (set_groq_api_key (Some "") built)
     = (Returned false, set_groq_api_key (Some "") built,
        [EvEnvironGet KEY;
         EvPrint ("Error initializing Groq LLM: " ++ missing_key_msg)]).
Proof.
  split.
  - destruct (empty_key_is_absent demo_world (set_groq_api_key (Some "") built) _
                eq_refl eq_refl) as (_ & _ & Hfallback & _).
    apply Hfallback; [reflexivity|discriminate].
  - destruct (empty_key_is_absent (with_environ {[ KEY := "" ]} demo_world)
                (set_groq_api_key (Some "") built) _ eq_refl eq_refl)
      as (_ & _ & _ & Hmissing).
    apply Hmissing. right. reflexivity.
Defined.

(** * Further properties of the notebook's code *)

(** ** The text of a document *)

Lemma string_app_empty_r (a : string) : (a ++ "")%string = a.
Proof.
  induction a as [|c a IH]; [reflexivity|].
  change (String c (a ++ "")%string = String c a). rewrite IH. reflexivity.
Qed.

Lemma string_app_assoc (a b c : string) :
  ((a ++ b) ++ c)%string = (a ++ (b ++ c))%string.
Proof.
  induction a as [|x a IH]; [reflexivity|].
  change (String x ((a ++ b) ++ c)%string = String x (a ++ (b ++ c))%string).
  rewrite IH. reflexivity.
Qed.

Lemma join_cons (x : string) (xs : list string) :
  String.concat "" (x :: xs) = (x ++ String.concat "" xs)%string.
Proof.
  destruct xs as [|y ys]; simpl; [rewrite string_app_empty_r|]; reflexivity.
Qed.

Lemma extract_pages_all_good (texts : list string) n text s :
  extract_pages (map inr texts) n text s
    = (Returned (text ++ String.concat "" texts)%string, s,
       map EvExtractText (seq n (length texts))).
Proof.
  revert n text. induction texts as [|t texts IH]; intros n text.
  - simpl. rewrite string_app_empty_r. reflexivity.
  - rewrite join_cons. cbn [map extract_pages length seq]. run_py.
    rewrite (IH (S n) (text ++ t)%string). rewrite string_app_assoc. reflexivity.
Qed.

Lemma extract_pages_first_bad (good : list string) e rest n text s :
  extract_pages (map inr good ++ inl e :: rest) n text s
    = (Raised e, s, map EvExtractText (seq n (S (length good)))).
Proof.
  revert n text. induction good as [|t good IH]; intros n text.
  - reflexivity.
  - cbn [map app extract_pages length]. run_py.
    rewrite (IH (S n) (text ++ t)%string). reflexivity.
Qed.

(** X1: when the document opens and every page extracts, the extractor
    returns the page texts joined in page order, with nothing between
    them; it opens the document once and extracts each page once, in
    order, prints nothing and assigns no field. *)
Theorem extract_text_joins_pages w s (texts : list string) :
  open_pdf w (pdf_path s) = inr (map inr texts) ->
  extract_text_from_pdf w s
    = (Returned (Some (String.concat "" texts)), s,
       EvOpenPdf (pdf_path s) :: map EvExtractText (seq 0 (length texts))).
Proof.
  intros Hopen. rewrite extract_text_run, Hopen.
  rewrite (extract_pages_all_good texts 0 "" s). reflexivity.
Qed.

Lemma extract_text_joins_pages_witness :
  extract_text_from_pdf demo_world (fresh "paper.pdf")
    = (Returned
         (Some "Machine translation converts text between languages. It can be rule-based, statistical, or neural."),
       fresh "paper.pdf",
       [EvOpenPdf "paper.pdf"; EvExtractText 0; EvExtractText 1]).
Proof.
  apply (extract_text_joins_pages demo_world (fresh "paper.pdf")
           ["Machine translation converts text between languages. ";
            "It can be rule-based, statistical, or neural."]).
  reflexivity.
Defined.

(** X2: when a page does not extract, the extractor stops at it: the
    pages after it are never extracted and the text of the pages before
    it is dropped.  If the page's exception is an instance of
    [Exception], what is returned is [None] after the message with that
    exception; otherwise the exception leaves the extractor and nothing
    is printed. *)
Theorem extraction_stops_at_first_bad_page w s (good : list string) e rest :
  open_pdf w (pdf_path s) = inr (map inr good ++ inl e :: rest) ->
  extract_text_from_pdf w s
    = if is_Exception e then
        (Returned None, s,
         EvOpenPdf (pdf_path s)
           :: map EvExtractText (seq 0 (S (length good)))
           ++ [EvPrint ("Error reading PDF: " ++ exc_msg e)])
      else
        (Raised e, s,
         EvOpenPdf (pdf_path s) :: map EvExtractText (seq 0 (S (length good)))).
Proof.
  intros Hopen. rewrite extract_text_run, Hopen.
  rewrite (extract_pages_first_bad good e rest 0 "" s). reflexivity.
Qed.

Lemma extraction_stops_at_first_bad_page_witness :
  extract_text_from_pdf torn_world (fresh "torn.pdf")
    = (Returned None, fresh "torn.pdf",
       [EvOpenPdf "torn.pdf"; EvExtractText 0; EvExtractText 1;
        EvPrint "Error reading PDF: bad xref"]).
Proof.
  apply (extraction_stops_at_first_bad_page torn_world (fresh "torn.pdf")
           ["Machine translation"] (mkException "PdfReadError" "bad xref")
           [inr " never read"]).
  reflexivity.
Defined.

(** ** Every run of [create_vector_store] *)

Lemma eqb_false_of_nonempty (text : string) :
  text <> "" -> String.eqb text "" = false.
Proof. intros Hne. destruct (String.eqb_spec text ""); [contradiction|reflexivity]. Qed.

(** X3: when the document has text, the splitter answers with chunks and
    the index builds, [create_vector_store] returns [True] and the store
    it assigns holds exactly the splitter's chunks, in the splitter's
    order, under the object's embeddings; the splitter was called once,
    with the whole text, after the reads; no other field changes. *)
Theorem create_vector_store_builds w s text texts :
  outcome (extract_text_from_pdf w s) = Returned (Some text) ->
  text <> "" ->
  split_text w (text_splitter s) text = inr texts ->
  from_texts w texts (embeddings s) = None ->
  create_vector_store w s
    = (Returned true,
       set_vector_store (Some (mkFAISS texts (embeddings s))) s,
       events (extract_text_from_pdf w s)
         ++ [EvSplitText (text_splitter s) text; EvFromTexts texts (embeddings s)]).
Proof.
  intros Htext Hne Hsplit Hindex.
  rewrite create_vector_store_run, Htext, (eqb_false_of_nonempty text Hne).
  rewrite Hsplit, Hindex. reflexivity.
Qed.

Lemma create_vector_store_builds_witness :
  create_vector_store demo_world (fresh "paper.pdf")
    = (Returned true,
       set_vector_store
         (Some (mkFAISS
                  ["Machine translation converts text between languages. It can be rule-based, statistical, or neural."]
                  (embeddings (fresh "paper.pdf"))))
         (fresh "paper.pdf"),
       events (extract_text_from_pdf demo_world (fresh "paper.pdf"))
         ++ [EvSplitText (text_splitter (fresh "paper.pdf"))
               "Machine translation converts text between languages. It can be rule-based, statistical, or neural.";
             EvFromTexts
               ["Machine translation converts text between languages. It can be rule-based, statistical, or neural."]
               (embeddings (fresh "paper.pdf"))]).
Proof.
  apply (create_vector_store_builds demo_world (fresh "paper.pdf")
           "Machine translation converts text between languages. It can be rule-based, statistical, or neural.");
    [reflexivity|discriminate|reflexivity|reflexivity].
Defined.

(** X4: an exception leaves [create_vector_store] exactly when reading
    the document raises one that is not an instance of [Exception], or
    the document has text and the splitter, or after it the index
    builder, raises: it is that exception, and no field is assigned.  A
    failure to read the document that is an instance of [Exception]
    never leaves the method as an exception. *)
Theorem create_vector_store_raises_iff w s e :
  (outcome (create_vector_store w s) = Raised e
   <-> (extraction_failure w (pdf_path s) = Some e /\ is_Exception e = false)
       \/ exists text,
            outcome (extract_text_from_pdf w s) = Returned (Some text)
            /\ text <> ""
            /\ (split_text w (text_splitter s) text = inl e
                \/ exists texts,
                     split_text w (text_splitter s) text = inr texts
                     /\ from_texts w texts (embeddings s) = Some e))
  /\ (outcome (create_vector_store w s) = Raised e ->
      self_after (create_vector_store w s) = s).
Proof.
  split;
    [|intros Hraised;
      destruct (create_vector_store_cases w s) as [[Htrue _]|[_ Hself]];
      [rewrite Hraised in Htrue; discriminate|exact Hself]].
  rewrite <- (extract_text_raised w s e).
  rewrite create_vector_store_run.
  destruct (outcome (extract_text_from_pdf w s)) as [[text|]|e0].
  - destruct (String.eqb_spec text "") as [->|Hne].
    + split; [discriminate|].
      intros [Hread|(t & Heq & Hne & _)]; [discriminate|].
      injection Heq as <-. contradiction.
    + destruct (split_text w (text_splitter s) text) as [e'|texts] eqn:Hsplit.
      * split.
        -- intros [= ->]. right. exists text. auto.
        -- intros [Hread|(t & Heq & _ & Hsource)]; [discriminate|].
           injection Heq as <-. rewrite Hsplit in Hsource.
           destruct Hsource as [Hs|(texts & Hs & _)]; [|discriminate].
           injection Hs as ->. reflexivity.
      * destruct (from_texts w texts (embeddings s)) as [e'|] eqn:Hindex.
        -- split.
           ++ intros [= ->]. right. exists text. split; [reflexivity|].
              split; [exact Hne|]. right. exists texts. auto.
           ++ intros [Hread|(t & Heq & _ & Hsource)]; [discriminate|].
              injection Heq as <-. rewrite Hsplit in Hsource.
              destruct Hsource as [Hs|(texts' & Hs & Hi)]; [discriminate|].
              injection Hs as <-. rewrite Hindex in Hi. injection Hi as ->.
              reflexivity.
        -- split; [discriminate|].
           intros [Hread|(t & Heq & _ & Hsource)]; [discriminate|].
           injection Heq as <-. rewrite Hsplit in Hsource.
           destruct Hsource as [Hs|(texts' & Hs & Hi)]; [discriminate|].
           injection Hs as <-. rewrite Hindex in Hi. discriminate.
  - split; [discriminate|].
    intros [Hread|(t & Hsome & _)]; discriminate.
  - split.
    + intros [= ->]. left. reflexivity.
    + intros [Hread|(t & Hsome & _)]; [|discriminate].
      injection Hread as ->. reflexivity.
Qed.

Lemma create_vector_store_raises_iff_witness :
  outcome (create_vector_store failing_world (fresh "paper.pdf"))
    = Raised (mkException "ValueError" "cannot split")
  /\ self_after (create_vector_store failing_world (fresh "paper.pdf"))
     = fresh "paper.pdf".
Proof.
  destruct (create_vector_store_raises_iff failing_world (fresh "paper.pdf")
              (mkException "ValueError" "cannot split")) as [Hiff Hself].
  assert (outcome (create_vector_store failing_world (fresh "paper.pdf"))
          = Raised (mkException "ValueError" "cannot split")) as Hraised.
  { apply Hiff. right.
    exists "Machine translation converts text between languages. It can be rule-based, statistical, or neural.".
    split; [reflexivity|]. split; [discriminate|]. left. reflexivity. }
  split; [exact Hraised|exact (Hself Hraised)].
Defined.

Lemma prints_are_not_build_events (lines : list string) :
  no_event is_chunk_or_index_event (map EvPrint lines) = true.
Proof. induction lines as [|l lines IH]; [reflexivity|exact IH]. Qed.

Lemma extractor_does_not_build w s :
  no_event is_chunk_or_index_event (events (extract_text_from_pdf w s)) = true.
Proof.
  destruct (extract_text_reads w s) as (reads & lines & -> & Hreads).
  rewrite no_event_app, (read_events_are_not_build_events reads Hreads).
  apply prints_are_not_build_events.
Qed.

(** X5: [create_vector_store] returns [False] exactly when the extractor
    returned [None] or the empty text; and neither the splitter nor the
    index builder is called exactly when the extractor returned [None] or
    the empty text, or an exception left it. *)
Theorem create_vector_store_false_iff w s :
  (outcome (create_vector_store w s) = Returned false
   <-> exists text,
         outcome (extract_text_from_pdf w s) = Returned text /\ truthy text = false)
  /\ (no_event is_chunk_or_index_event (events (create_vector_store w s)) = true
      <-> (exists text,
             outcome (extract_text_from_pdf w s) = Returned text
             /\ truthy text = false)
          \/ exists e, outcome (extract_text_from_pdf w s) = Raised e).
Proof.
  pose proof (extractor_does_not_build w s) as Hreads.
  rewrite create_vector_store_run.
  destruct (outcome (extract_text_from_pdf w s)) as [[text|]|e0].
  - simpl. destruct (String.eqb text "") eqn:Hempty.
    + split; split; try reflexivity.
      * intros _. exists (Some text). split; [reflexivity|]. simpl.
        rewrite Hempty. reflexivity.
      * intros _. left. exists (Some text). split; [reflexivity|]. simpl.
        rewrite Hempty. reflexivity.
      * intros _. exact Hreads.
    + assert (~ exists t : option string,
                Returned (Some text) = Returned t /\ truthy t = false) as Hno.
      { intros (t & [= <-] & Ht). simpl in Ht. rewrite Hempty in Ht. discriminate. }
      destruct (split_text w (text_splitter s) text) as [e|texts];
        [|destruct (from_texts w texts (embeddings s)) as [e|]];
        (split; (split;
                 [|try (intros H; destruct (Hno H));
                   try (intros [H|[e' H]]; [destruct (Hno H)|discriminate])]));
        try discriminate;
        unfold events; simpl; rewrite no_event_app, andb_comm; simpl; discriminate.
  - split; split; try reflexivity.
    + intros _. exists None. split; reflexivity.
    + intros _. left. exists None. split; reflexivity.
    + intros _. exact Hreads.
  - split; split; try discriminate.
    + intros (t & Ht & _). discriminate.
    + intros _. right. exists e0. reflexivity.
    + intros _. exact Hreads.
Qed.

(** ** Every run of [initialize_qa_chain] *)

Lemma initialize_qa_chain_run w s vs key :
  vector_store s = Some vs ->
  resolved_key w s = Some key ->
  key <> "" ->
  initialize_qa_chain w s
    = match new_ChatGroq w (groq_model key) with
      | Some e =>
          if is_Exception e then
            (Returned false, s,
             (if truthy (groq_api_key s) then [] else [EvEnvironGet KEY])
               ++ [EvNewChatGroq (groq_model key);
                   EvPrint ("Error initializing Groq LLM: " ++ exc_msg e)])
          else
            (Raised e, s,
             (if truthy (groq_api_key s) then [] else [EvEnvironGet KEY])
               ++ [EvNewChatGroq (groq_model key)])
      | None =>
          match from_chain_type w (chain_over vs key) with
          | Some e =>
              (Raised e, s,
               (if truthy (groq_api_key s) then [] else [EvEnvironGet KEY])
                 ++ [EvNewChatGroq (groq_model key);
                     EvFromChainType (chain_over vs key)])
          | None =>
              (Returned true, set_qa_chain (Some (chain_over vs key)) s,
               (if truthy (groq_api_key s) then [] else [EvEnvironGet KEY])
                 ++ [EvNewChatGroq (groq_model key);
                     EvFromChainType (chain_over vs key)])
          end
      end.
Proof.
  intros Hvs Hkey Hne. unfold resolved_key in Hkey.
  unfold initialize_qa_chain, groq_llm, api_key_or_environ. run_py. fold KEY.
  rewrite Hvs. simpl.
  destruct (truthy (groq_api_key s)) eqn:Hfield; simpl; rewrite Hkey; simpl;
    rewrite (eqb_false_of_nonempty key Hne); simpl;
    unfold chain_over; fold (groq_model key);
    (destruct (new_ChatGroq w (groq_model key)) as [e|]; simpl;
     [destruct (is_Exception e); reflexivity|]);
    destruct (from_chain_type w _); reflexivity.
Qed.

Lemma initialize_qa_chain_no_store w s :
  vector_store s = None ->
  initialize_qa_chain w s
    = (Returned false, s,
       [EvPrint "Vector store not initialized. Run create_vector_store first."]).
Proof.
  intros Hnone. unfold initialize_qa_chain. run_py. rewrite Hnone. reflexivity.
Qed.

Lemma initialize_qa_chain_no_key w s vs :
  vector_store s = Some vs ->
  truthy (resolved_key w s) = false ->
  initialize_qa_chain w s
    = (Returned false, s,
       [EvEnvironGet KEY; EvPrint ("Error initializing Groq LLM: " ++ missing_key_msg)]).
Proof.
  intros Hvs Hkey. unfold resolved_key in Hkey.
  destruct (truthy (groq_api_key s)) eqn:Hfield.
  - rewrite Hfield in Hkey. discriminate.
  - apply (initialize_without_key w s vs Hvs Hfield Hkey).
Qed.

Lemma resolved_key_cases w s :
  (exists key, resolved_key w s = Some key /\ key <> "")
  \/ truthy (resolved_key w s) = false.
Proof.
  destruct (truthy (resolved_key w s)) eqn:Hk; [left|right; reflexivity].
  apply truthy_true in Hk. exact Hk.
Qed.

(** X6: on an object without a vector store, [initialize_qa_chain] prints
    that the store is not initialized and returns [False], whatever key
    was passed and whatever the environment holds: the environment is not
    read, no model and no chain is constructed, and no field is
    assigned, so the object's state is what it was. *)
Theorem initialize_before_build w s :
  vector_store s = None ->
  initialize_qa_chain w s
    = (Returned false, s,
       [EvPrint "Vector store not initialized. Run create_vector_store first."])
  /\ no_event is_model_event (events (initialize_qa_chain w s)) = true
  /\ state_of (self_after (initialize_qa_chain w s)) = state_of s.
Proof.
  intros Hnone. rewrite (initialize_qa_chain_no_store w s Hnone).
  repeat split.
Qed.

Lemma initialize_before_build_witness :
  initialize_qa_chain demo_world (set_groq_api_key (Some "gsk_own") (fresh "paper.pdf"))
    = (Returned false, set_groq_api_key (Some "gsk_own") (fresh "paper.pdf"),
       [EvPrint "Vector store not initialized. Run create_vector_store first."]).
Proof.
  apply (initialize_before_build demo_world
           (set_groq_api_key (Some "gsk_own") (fresh "paper.pdf"))).
  reflexivity.
Defined.

(** X7: a non-empty key passed to the constructor is the one used: with
    the index built, [initialize_qa_chain] does not read the environment,
    constructs the model with that key first of all, and does the same
    in every environment, whether the variable is set there or not. *)
Theorem explicit_key_wins w s vs key :
  vector_store s = Some vs ->
  groq_api_key s = Some key ->
  key <> "" ->
  no_event is_environ_event (events (initialize_qa_chain w s)) = true
  /\ (exists rest,
        events (initialize_qa_chain w s) = EvNewChatGroq (groq_model key) :: rest)
  /\ (forall env, initialize_qa_chain (with_environ env w) s = initialize_qa_chain w s).
Proof.
  intros Hvs Hfield Hne.
  assert (truthy (groq_api_key s) = true) as Htruthy.
  { apply truthy_true. exists key. auto. }
  assert (forall w', resolved_key w' s = Some key) as Hkey.
  { intros w'. unfold resolved_key. rewrite Htruthy. exact Hfield. }
  rewrite (initialize_qa_chain_run w s vs key Hvs (Hkey w) Hne).
  rewrite Htruthy. split; [|split].
  - destruct (new_ChatGroq w (groq_model key)) as [e|];
      [destruct (is_Exception e); reflexivity|].
    destruct (from_chain_type w (chain_over vs key)); reflexivity.
  - destruct (new_ChatGroq w (groq_model key)) as [e|];
      [destruct (is_Exception e); eexists; reflexivity|].
    destruct (from_chain_type w (chain_over vs key)); eexists; reflexivity.
  - intros env.
    rewrite (initialize_qa_chain_run (with_environ env w) s vs key Hvs (Hkey _) Hne).
    rewrite Htruthy. reflexivity.
Qed.

Lemma explicit_key_wins_witness :
  initialize_qa_chain (with_environ ∅ demo_world) (set_groq_api_key (Some "gsk_own") built)
    = initialize_qa_chain demo_world (set_groq_api_key (Some "gsk_own") built)
  /\ exists rest,
       events (initialize_qa_chain demo_world (set_groq_api_key (Some "gsk_own") built))
         = EvNewChatGroq (groq_model "gsk_own") :: rest.
Proof.
  destruct (explicit_key_wins demo_world (set_groq_api_key (Some "gsk_own") built)
              _ "gsk_own" eq_refl eq_refl ltac:(discriminate))
    as (_ & Hfirst & Hany).
  split; [apply Hany|exact Hfirst].
Defined.

(** Cases of a run of [initialize_qa_chain]: no store, no key, or a store
    and a key. *)
Ltac initialize_cases w s :=
  let vs := fresh "vs" in
  let key := fresh "key" in
  let Hvs := fresh "Hvs" in
  let Hkey := fresh "Hkey" in
  let Hne := fresh "Hne" in
  destruct (vector_store s) as [vs|] eqn:Hvs;
  [ destruct (resolved_key_cases w s) as [(key & Hkey & Hne)|Hkey];
    [ rewrite (initialize_qa_chain_run w s vs key Hvs Hkey Hne)
    | rewrite (initialize_qa_chain_no_key w s vs Hvs Hkey) ]
  | rewrite (initialize_qa_chain_no_store w s Hvs) ].

Ltac same_store_and_key :=
  match goal with
  | H : Some ?a = Some ?b |- _ => injection H as <-
  | H1 : ?x = Some ?a, H2 : ?x = Some ?b |- _ =>
      rewrite H1 in H2; injection H2 as <-
  | H1 : truthy ?k = false, H2 : ?k = Some ?key, H3 : ?key <> "" |- _ =>
      rewrite H2 in H1; simpl in H1;
      rewrite (eqb_false_of_nonempty key H3) in H1; discriminate
  end.

(** X8: when the constructor of the Groq model raises an instance of
    [Exception], the exception stays inside [initialize_qa_chain]: the
    method prints "Error initializing Groq LLM: " with the exception's
    text and returns [False]; when it raises anything else, that leaves
    the method and nothing is printed.  Either way the chain is not
    constructed and no field is assigned. *)
Theorem model_failure_is_caught w s vs key e :
  vector_store s = Some vs ->
  resolved_key w s = Some key ->
  key <> "" ->
  new_ChatGroq w (groq_model key) = Some e ->
  initialize_qa_chain w s
    = if is_Exception e then
        (Returned false, s,
         (if truthy (groq_api_key s) then [] else [EvEnvironGet KEY])
           ++ [EvNewChatGroq (groq_model key);
               EvPrint ("Error initializing Groq LLM: " ++ exc_msg e)])
      else
        (Raised e, s,
         (if truthy (groq_api_key s) then [] else [EvEnvironGet KEY])
           ++ [EvNewChatGroq (groq_model key)]).
Proof.
  intros Hvs Hkey Hne Hllm.
  rewrite (initialize_qa_chain_run w s vs key Hvs Hkey Hne), Hllm. reflexivity.
Qed.

Lemma model_failure_is_caught_witness :
  initialize_qa_chain failing_world built
    = (Returned false, built,
       [EvEnvironGet KEY; EvNewChatGroq (groq_model "gsk_demo");
        EvPrint "Error initializing Groq LLM: invalid api key"]).
Proof.
  apply (model_failure_is_caught failing_world built
           (mkFAISS
              ["Machine translation converts text between languages. It can be rule-based, statistical, or neural."]
              (mkEmbeddings "sentence-transformers/all-MiniLM-L6-v2"))
           "gsk_demo" (mkException "GroqError" "invalid api key"));
    [reflexivity|reflexivity|discriminate|reflexivity].
Defined.

(** X9: an exception leaves [initialize_qa_chain] exactly when the store
    is there, a non-empty key is resolved, and either the constructor of
    the model raises one that is not an instance of [Exception], or the
    model is constructed and the constructor of the chain, which is
    outside the [try], raises: it is that exception, and the chain field
    is not assigned.  A missing key, and a model constructor failing
    with an instance of [Exception], never leave the method as an
    exception. *)
Theorem initialize_raises_iff w s e :
  (outcome (initialize_qa_chain w s) = Raised e
   <-> exists vs key,
         vector_store s = Some vs
         /\ resolved_key w s = Some key
         /\ key <> ""
         /\ ((new_ChatGroq w (groq_model key) = Some e /\ is_Exception e = false)
             \/ (new_ChatGroq w (groq_model key) = None
                 /\ from_chain_type w (chain_over vs key) = Some e)))
  /\ (outcome (initialize_qa_chain w s) = Raised e ->
      self_after (initialize_qa_chain w s) = s).
Proof.
  split;
    [|intros Hraised;
      destruct (initialize_qa_chain_cases w s) as [[Htrue _]|[_ Hself]];
      [rewrite Hraised in Htrue; discriminate|exact Hself]].
  initialize_cases w s.
  - destruct (new_ChatGroq w (groq_model key)) as [e1|] eqn:Hllm.
    + destruct (is_Exception e1) eqn:Hclass.
      * split; [discriminate|].
        intros (vs' & key' & Hvs' & Hkey' & Hne' & Hsource).
        repeat same_store_and_key. rewrite Hllm in Hsource.
        destruct Hsource as [[Heq Hc]|[Heq _]]; [|discriminate].
        injection Heq as <-. rewrite Hclass in Hc. discriminate.
      * split.
        -- intros [= <-]. exists vs, key. split; [reflexivity|].
           split; [exact Hkey|]. split; [exact Hne|]. left.
           split; [exact Hllm|exact Hclass].
        -- intros (vs' & key' & Hvs' & Hkey' & Hne' & Hsource).
           repeat same_store_and_key. rewrite Hllm in Hsource.
           destruct Hsource as [[Heq _]|[Heq _]]; [|discriminate].
           injection Heq as <-. reflexivity.
    + destruct (from_chain_type w (chain_over vs key)) as [e2|] eqn:Hchain.
      * split.
        -- intros [= <-]. exists vs, key. split; [reflexivity|].
           split; [exact Hkey|]. split; [exact Hne|]. right.
           split; [exact Hllm|exact Hchain].
        -- intros (vs' & key' & Hvs' & Hkey' & Hne' & Hsource).
           repeat same_store_and_key. rewrite Hllm, Hchain in Hsource.
           destruct Hsource as [[Heq _]|[_ Heq]]; [discriminate|].
           injection Heq as <-. reflexivity.
      * split; [discriminate|].
        intros (vs' & key' & Hvs' & Hkey' & Hne' & Hsource).
        repeat same_store_and_key. rewrite Hllm, Hchain in Hsource.
        destruct Hsource as [[Heq _]|[_ Heq]]; discriminate.
  - split; [discriminate|].
    intros (vs' & key' & Hvs' & Hkey' & Hne' & _). repeat same_store_and_key.
  - split; [discriminate|]. intros (vs' & key' & Hvs' & _). discriminate.
Qed.

Lemma initialize_raises_iff_witness :
  outcome (initialize_qa_chain
             (mkWorld (open_pdf demo_world) (environ demo_world) (fun _ => None)
                      (fun _ => None) (split_text demo_world) (fun _ _ => None)
                      (fun _ => None)
                      (fun _ => Some (mkException "ValidationError" "bad chain"))
                      (chain_run demo_world))
             built)
    = Raised (mkException "ValidationError" "bad chain")
  /\ outcome (initialize_qa_chain interrupted_world built) = Raised KeyboardInterrupt.
Proof.
  split.
  - apply (proj1 (initialize_raises_iff _ built _)).
    exists (mkFAISS
              ["Machine translation converts text between languages. It can be rule-based, statistical, or neural."]
              (mkEmbeddings "sentence-transformers/all-MiniLM-L6-v2")),
           "gsk_demo".
    split; [reflexivity|]. split; [reflexivity|]. split; [discriminate|].
    right. split; reflexivity.
  - apply (proj1 (initialize_raises_iff interrupted_world built KeyboardInterrupt)).
    exists (mkFAISS
              ["Machine translation converts text between languages. It can be rule-based, statistical, or neural."]
              (mkEmbeddings "sentence-transformers/all-MiniLM-L6-v2")),
           "gsk_demo".
    split; [reflexivity|]. split; [reflexivity|]. split; [discriminate|].
    left. split; reflexivity.
Defined.

(** X10: [initialize_qa_chain] returns [True] exactly when the store is
    there, the key it resolves (the field if non-empty, the environment
    variable otherwise) is non-empty, and both constructors succeed; the
    chain it then assigns is the "stuff" chain of the
    llama-3.3-70b-versatile model at temperature 0 with that key, over a
    retriever of 3 chunks on the object's current store; no other field
    changes. *)
Theorem initialize_true_iff w s :
  (outcome (initialize_qa_chain w s) = Returned true
   <-> exists vs key,
         vector_store s = Some vs
         /\ resolved_key w s = Some key
         /\ key <> ""
         /\ new_ChatGroq w (groq_model key) = None
         /\ from_chain_type w (chain_over vs key) = None)
  /\ (forall vs key,
        vector_store s = Some vs ->
        resolved_key w s = Some key ->
        outcome (initialize_qa_chain w s) = Returned true ->
        self_after (initialize_qa_chain w s)
          = set_qa_chain
              (Some (mkRetrievalQA
                       (mkChatGroq "llama-3.3-70b-versatile" 0 None key)
                       "stuff" (mkRetriever vs 3)))
              s).
Proof.
  split.
  - initialize_cases w s.
    + destruct (new_ChatGroq w (groq_model key)) as [e1|] eqn:Hllm.
      * split.
        -- destruct (is_Exception e1); discriminate.
        -- intros (vs' & key' & Hvs' & Hkey' & Hne' & Hllm' & _).
           repeat same_store_and_key. rewrite Hllm in Hllm'. discriminate.
      * destruct (from_chain_type w (chain_over vs key)) as [e2|] eqn:Hchain.
        -- split; [discriminate|].
           intros (vs' & key' & Hvs' & Hkey' & Hne' & _ & Hchain').
           repeat same_store_and_key. rewrite Hchain in Hchain'. discriminate.
        -- split; [|reflexivity]. intros _. exists vs, key.
           repeat (split; [assumption || reflexivity|]). assumption.
    + split; [discriminate|].
      intros (vs' & key' & Hvs' & Hkey' & Hne' & _). repeat same_store_and_key.
    + split; [discriminate|]. intros (vs' & key' & Hvs' & _). discriminate.
  - intros vs key Hvs Hkey.
    destruct (resolved_key_cases w s) as [(key' & Hkey' & Hne)|Hno].
    + rewrite Hkey in Hkey'. injection Hkey' as <-.
      rewrite (initialize_qa_chain_run w s vs key Hvs Hkey Hne).
      destruct (new_ChatGroq w (groq_model key)) as [e|];
        [destruct (is_Exception e); discriminate|].
      destruct (from_chain_type w (chain_over vs key)); [discriminate|].
      reflexivity.
    + rewrite (initialize_qa_chain_no_key w s vs Hvs Hno). discriminate.
Qed.

Lemma initialize_true_iff_witness :
  outcome (initialize_qa_chain demo_world built) = Returned true
  /\ qa_chain (self_after (initialize_qa_chain demo_world built))
     = Some (mkRetrievalQA
               (mkChatGroq "llama-3.3-70b-versatile" 0 None "gsk_demo")
               "stuff"
               (mkRetriever
                  (mkFAISS
                     ["Machine translation converts text between languages. It can be rule-based, statistical, or neural."]
                     (mkEmbeddings "sentence-transformers/all-MiniLM-L6-v2"))
                  3)).
Proof.
  destruct (initialize_true_iff demo_world built) as [Hiff Hchain].
  assert (outcome (initialize_qa_chain demo_world built) = Returned true) as Htrue.
  { apply Hiff. eexists _, "gsk_demo". repeat split. discriminate. }
  split; [exact Htrue|].
  rewrite (Hchain _ "gsk_demo" eq_refl eq_refl Htrue). reflexivity.
Defined.

(** ** The life of an object *)

(** X11: building the index again on an object that has a chain replaces
    the store and leaves the chain alone: the chain field still holds the
    chain made before, and a question asked afterwards is run on that
    chain, whose retriever is over the store of its own time. *)
Theorem rebuild_keeps_old_chain w w' s chain question :
  qa_chain s = Some chain ->
  outcome (create_vector_store w s) = Returned true ->
  qa_chain (self_after (create_vector_store w s)) = Some chain
  /\ (exists texts,
        vector_store (self_after (create_vector_store w s))
          = Some (mkFAISS texts (embeddings s)))
  /\ (exists rest,
        events (query w' question (self_after (create_vector_store w s)))
          = EvRun chain question :: rest).
Proof.
  intros Hchain Htrue.
  destruct (create_vector_store_cases w s)
    as [[_ [texts Hself]]|[[Hfalse|[e He]] _]];
    [|rewrite Htrue in Hfalse; discriminate|rewrite Htrue in He; discriminate].
  rewrite Hself. split; [exact Hchain|]. split; [exists texts; reflexivity|].
  rewrite (query_with_chain w' question
             (set_vector_store (Some (mkFAISS texts (embeddings s))) s) chain Hchain).
  destruct (chain_run w' chain question) as [e|response];
    [destruct (is_Exception e)|]; eexists; reflexivity.
Qed.

Lemma rebuild_keeps_old_chain_witness :
  qa_chain (self_after (create_vector_store demo_world ready)) = qa_chain ready
  /\ exists chain rest,
       qa_chain ready = Some chain
       /\ events (query demo_world "Summarize the key points."
                    (self_after (create_vector_store demo_world ready)))
          = EvRun chain "Summarize the key points." :: rest.
Proof.
  destruct (rebuild_keeps_old_chain demo_world demo_world ready
              (chain_over
                 (mkFAISS
                    ["Machine translation converts text between languages. It can be rule-based, statistical, or neural."]
                    (mkEmbeddings "sentence-transformers/all-MiniLM-L6-v2"))
                 "gsk_demo")
              "Summarize the key points." eq_refl eq_refl)
    as (Hkept & _ & rest & Hrun).
  split; [exact Hkept|]. eexists _, rest. split; [reflexivity|exact Hrun].
Defined.

Lemma run_op_keeps_configuration w op s :
  pdf_path (run_op w op s) = pdf_path s
  /\ chunk_size (run_op w op s) = chunk_size s
  /\ chunk_overlap (run_op w op s) = chunk_overlap s
  /\ groq_api_key (run_op w op s) = groq_api_key s
  /\ embeddings (run_op w op s) = embeddings s
  /\ text_splitter (run_op w op s) = text_splitter s.
Proof.
  destruct op as [| |question]; simpl.
  - destruct (create_vector_store_cases w s) as [[_ [texts ->]]|[_ ->]];
      repeat split.
  - destruct (initialize_qa_chain_cases w s)
      as [[_ (vs & key & _ & _ & _ & ->)]|[_ ->]]; repeat split.
  - rewrite query_self. repeat split.
Qed.

(** X12: no operation assigns a configuration field: after every
    sequence of operations the path, the chunk size and overlap, the key,
    the embeddings and the splitter are those of the start.  In
    particular a key cannot be supplied, nor the document changed,
    after construction by these methods. *)
Theorem configuration_is_never_assigned calls s :
  pdf_path (run_ops calls s) = pdf_path s
  /\ chunk_size (run_ops calls s) = chunk_size s
  /\ chunk_overlap (run_ops calls s) = chunk_overlap s
  /\ groq_api_key (run_ops calls s) = groq_api_key s
  /\ embeddings (run_ops calls s) = embeddings s
  /\ text_splitter (run_ops calls s) = text_splitter s.
Proof.
  revert s. induction calls as [|[w op] rest IH]; intros s; simpl;
    [repeat split|].
  destruct (IH (run_op w op s)) as (H1 & H2 & H3 & H4 & H5 & H6).
  destruct (run_op_keeps_configuration w op s) as (K1 & K2 & K3 & K4 & K5 & K6).
  rewrite H1, H2, H3, H4, H5, H6. repeat split; assumption.
Qed.

Lemma run_op_keeps_well_formed w op s :
  well_formed s -> well_formed (run_op w op s).
Proof.
  intros Hwf. pose proof Hwf as (Hemb & Hts & Hstore & Hchain). destruct op as [| |question]; simpl.
  - destruct (create_vector_store_cases w s) as [[_ [texts ->]]|[_ ->]];
      [|exact Hwf].
    split; [exact Hemb|]. split; [exact Hts|]. split.
    + simpl. intros vs [= <-]. reflexivity.
    + simpl. intros chain Hc. destruct (Hchain chain Hc) as [_ Hex].
      split; [discriminate|exact Hex].
  - destruct (initialize_qa_chain_cases w s)
      as [[_ (vs & key & Hvs & Hne & _ & ->)]|[_ ->]];
      [|exact Hwf].
    split; [exact Hemb|]. split; [exact Hts|]. split.
    + simpl. exact Hstore.
    + simpl. intros chain [= <-]. split; [rewrite Hvs; discriminate|].
      exists vs, key. split; [reflexivity|]. split; [exact Hne|].
      apply Hstore. exact Hvs.
  - rewrite query_self. exact Hwf.
Qed.

(** X13: every object the constructor returns starts Uninitialized, and
    after every sequence of operations on it: its splitter has the
    object's chunk size and overlap; its store, if set, is under the
    object's embeddings; and its chain, if set, comes with a store, is a
    "stuff" chain of 3 chunks per question, and holds a non-empty key. *)
Theorem constructed_objects_stay_well_formed w path size overlap key s evs calls :
  __init__ w path size overlap key = (Returned s, evs) ->
  state_of s = Uninitialized
  /\ well_formed (run_ops calls s)
  /\ (forall chain,
        qa_chain (run_ops calls s) = Some chain ->
        vector_store (run_ops calls s) <> None
        /\ chain_type chain = "stuff"
        /\ search_k (retriever chain) = 3%Z
        /\ llm_groq_api_key (qa_llm chain) <> "").
Proof.
  intros Hinit.
  assert (state_of s = Uninitialized /\ well_formed s) as [Hstate Hwf].
  { unfold __init__ in Hinit. simpl in Hinit.
    destruct (new_embeddings w _); [discriminate|].
    destruct (new_splitter w _); [discriminate|].
    injection Hinit as <- _. split; [reflexivity|].
    repeat split; simpl; discriminate. }
  assert (well_formed (run_ops calls s)) as Hall.
  { clear Hinit Hstate. revert s Hwf.
    induction calls as [|[w' op] rest IH]; intros s Hwf; simpl; [exact Hwf|].
    apply IH. apply run_op_keeps_well_formed. exact Hwf. }
  split; [exact Hstate|]. split; [exact Hall|].
  intros chain Hc. destruct Hall as (_ & _ & _ & Hchain).
  destruct (Hchain chain Hc) as (Hstore & vs & k & -> & Hne & _).
  repeat split; [exact Hstore|exact Hne].
Qed.

Lemma constructed_objects_stay_well_formed_witness :
  well_formed ready
  /\ forall chain,
       qa_chain ready = Some chain ->
       vector_store ready <> None
       /\ chain_type chain = "stuff"
       /\ search_k (retriever chain) = 3%Z
       /\ llm_groq_api_key (qa_llm chain) <> "".
Proof.
  destruct (constructed_objects_stay_well_formed demo_world "paper.pdf" None None None
              (fresh "paper.pdf") _
              [(demo_world, OpCreateVectorStore); (demo_world, OpInitializeQaChain)]
              eq_refl)
    as (_ & Hwf & Hchain).
  split; [exact Hwf|exact Hchain].
Defined.

Lemma run_op_state_grows w op s :
  rank (state_of s) <= rank (state_of (run_op w op s)).
Proof.
  destruct op as [| |question]; simpl.
  - destruct (create_vector_store_cases w s) as [[_ [texts ->]]|[_ ->]]; [|lia].
    unfold state_of. simpl. destruct (qa_chain s), (vector_store s); simpl; lia.
  - destruct (initialize_qa_chain_cases w s)
      as [[_ (vs & key & _ & _ & _ & ->)]|[_ ->]]; [|lia].
    unfold state_of. simpl. destruct (qa_chain s), (vector_store s); simpl; lia.
  - rewrite query_self. lia.
Qed.

(** X14: no sequence of operations takes an object back: Uninitialized,
    IndexBuilt, Ready in this order, the state after is never before the
    state at the start; a store once built and a chain once set are never
    unset. *)
Theorem state_never_goes_back calls s :
  rank (state_of s) <= rank (state_of (run_ops calls s))
  /\ (vector_store s <> None -> vector_store (run_ops calls s) <> None)
  /\ (qa_chain s <> None -> qa_chain (run_ops calls s) <> None).
Proof.
  revert s. induction calls as [|[w op] rest IH]; intros s; simpl;
    [split; [lia|split; intros H; exact H]|].
  destruct (IH (run_op w op s)) as (Hrank & Hstore & Hchain).
  split; [pose proof (run_op_state_grows w op s); lia|].
  split; intros Hset.
  - apply Hstore. destruct op as [| |question]; simpl.
    + destruct (create_vector_store_cases w s) as [[_ [texts ->]]|[_ ->]];
        [discriminate|exact Hset].
    + destruct (initialize_qa_chain_cases w s)
        as [[_ (vs & key & _ & _ & _ & ->)]|[_ ->]]; exact Hset.
    + rewrite query_self. exact Hset.
  - apply Hchain. destruct op as [| |question]; simpl.
    + destruct (create_vector_store_cases w s) as [[_ [texts ->]]|[_ ->]];
        exact Hset.
    + destruct (initialize_qa_chain_cases w s)
        as [[_ (vs & key & _ & _ & _ & ->)]|[_ ->]]; [discriminate|exact Hset].
    + rewrite query_self. exact Hset.
Qed.

(** X15: from Uninitialized one operation never reaches Ready: a chain
    cannot be set before the index is built.  [initialize_qa_chain] and
    [query] leave the object Uninitialized, and the object is IndexBuilt
    after the operation exactly when it was [create_vector_store] and
    returned [True]. *)
Theorem uninitialized_one_step w op s :
  state_of s = Uninitialized ->
  state_of (run_op w op s) <> Ready
  /\ (state_of (run_op w op s) = IndexBuilt
      <-> op = OpCreateVectorStore
          /\ outcome (create_vector_store w s) = Returned true).
Proof.
  intros Hstate.
  assert (qa_chain s = None /\ vector_store s = None) as [Hchain Hstore].
  { unfold state_of in Hstate.
    destruct (qa_chain s), (vector_store s); try discriminate. split; reflexivity. }
  destruct op as [| |question]; simpl.
  - destruct (create_vector_store_cases w s)
      as [[Htrue [texts Hself]]|[Hfailed Hself]]; rewrite Hself.
    + unfold state_of. simpl. rewrite Hchain. split; [discriminate|].
      split; [intros _; split; [reflexivity|exact Htrue]|reflexivity].
    + rewrite Hstate. split; [discriminate|]. split; [discriminate|].
      intros [_ Htrue]. destruct Hfailed as [Hfalse|[e He]];
        [rewrite Htrue in Hfalse|rewrite Htrue in He]; discriminate.
  - rewrite (initialize_qa_chain_no_store w s Hstore). cbn [self_after fst snd].
    rewrite Hstate. split; [discriminate|]. split; [discriminate|].
    intros [Hop _]. discriminate.
  - rewrite query_self, Hstate. split; [discriminate|]. split; [discriminate|].
    intros [Hop _]. discriminate.
Qed.

Lemma uninitialized_one_step_witness :
  state_of (run_op demo_world OpInitializeQaChain (fresh "paper.pdf")) <> Ready
  /\ state_of (run_op demo_world OpCreateVectorStore (fresh "paper.pdf")) = IndexBuilt.
Proof.
  split.
  - apply (uninitialized_one_step demo_world OpInitializeQaChain (fresh "paper.pdf")).
    reflexivity.
  - apply (uninitialized_one_step demo_world OpCreateVectorStore (fresh "paper.pdf"));
      [reflexivity|]. split; reflexivity.
Defined.

(** ** [main] *)

(** One turn of the question loop. *)
Lemma ask_cons w question rest s chain :
  qa_chain s = Some chain ->
  ask w (question :: rest) s
    = if survives w chain question then
        (outcome (ask w rest s), self_after (ask w rest s),
         EvRun chain question
           :: map EvPrint (question_lines w chain question)
           ++ events (ask w rest s))
      else
        match chain_run w chain question with
        | inl e => (Raised e, s, [EvRun chain question])
        | inr _ => ask w rest s
        end.
Proof.
  intros Hchain. cbn [ask]. unfold bind at 1. unfold bind at 1.
  rewrite (query_with_chain w question s chain Hchain).
  unfold survives, question_lines.
  destruct (chain_run w chain question) as [e|answer].
  - destruct (is_Exception e); [|reflexivity].
    run_py. destruct (ask w rest s) as [[o s'] ev]. reflexivity.
  - cbn [truthy]. destruct (String.eqb answer ""); run_py;
      destruct (ask w rest s) as [[o s'] ev]; reflexivity.
Qed.

Lemma ask_run w questions s chain :
  qa_chain s = Some chain ->
  forallb (survives w chain) questions = true ->
  ask w questions s
    = (Returned tt, s,
       flat_map (fun question =>
                   EvRun chain question
                     :: map EvPrint (question_lines w chain question))
                questions).
Proof.
  intros Hchain. induction questions as [|question rest IH]; [reflexivity|].
  cbn [forallb]. intros Hall. apply andb_prop in Hall as [Hq Hrest].
  rewrite (ask_cons w question rest s chain Hchain), Hq, (IH Hrest). reflexivity.
Qed.

Lemma ask_interrupted w before question after s chain e :
  qa_chain s = Some chain ->
  forallb (survives w chain) before = true ->
  chain_run w chain question = inl e ->
  is_Exception e = false ->
  ask w (before ++ question :: after) s
    = (Raised e, s,
       flat_map (fun question =>
                   EvRun chain question
                     :: map EvPrint (question_lines w chain question))
                before
         ++ [EvRun chain question]).
Proof.
  intros Hchain Hbefore Hrun Hclass.
  induction before as [|q before IH]; cbn [app flat_map].
  - rewrite (ask_cons w question after s chain Hchain). unfold survives.
    rewrite Hrun, Hclass. reflexivity.
  - cbn [forallb] in Hbefore. apply andb_prop in Hbefore as [Hq Hrest].
    rewrite (ask_cons w q (before ++ question :: after) s chain Hchain), Hq.
    rewrite (IH Hrest). cbn [outcome self_after events fst snd].
    rewrite <- app_assoc. reflexivity.
Qed.

(** The question loop raises exactly at the first run that raises
    something else than an instance of [Exception]. *)
Lemma ask_raises_iff w questions s chain e :
  qa_chain s = Some chain ->
  outcome (ask w questions s) = Raised e
  <-> exists before question after,
        questions = before ++ question :: after
        /\ forallb (survives w chain) before = true
        /\ chain_run w chain question = inl e
        /\ is_Exception e = false.
Proof.
  intros Hchain. split.
  - induction questions as [|q rest IH]; [discriminate|].
    rewrite (ask_cons w q rest s chain Hchain).
    destruct (survives w chain q) eqn:Hq.
    + cbn [outcome fst]. intros Hraised.
      destruct (IH Hraised) as (before & question & after & -> & Hall & Hrun & Hclass).
      exists (q :: before), question, after. cbn [forallb]. rewrite Hq, Hall. auto.
    + unfold survives in Hq.
      destruct (chain_run w chain q) as [e0|answer] eqn:Hrun; [|discriminate].
      intros [= <-]. exists [], q, rest. auto.
  - intros (before & question & after & -> & Hall & Hrun & Hclass).
    rewrite (ask_interrupted w before question after s chain e Hchain Hall Hrun Hclass).
    reflexivity.
Qed.

Lemma main_on_run w s :
  main_on w s
    = match create_vector_store w s with
      | (Returned true, s1, ev1) =>
          match initialize_qa_chain w s1 with
          | (Returned true, s2, ev2) =>
              (outcome (ask w main_questions s2), self_after (ask w main_questions s2),
               ev1 ++ ev2 ++ events (ask w main_questions s2))
          | (Returned false, s2, ev2) =>
              (Returned tt, s2, ev1 ++ ev2 ++ [EvPrint "Failed to initialize QA chain"])
          | (Raised e, s2, ev2) => (Raised e, s2, ev1 ++ ev2)
          end
      | (Returned false, s1, ev1) =>
          (Returned tt, s1, ev1 ++ [EvPrint "Failed to create vector store"])
      | (Raised e, s1, ev1) => (Raised e, s1, ev1)
      end.
Proof.
  unfold main_on. unfold bind at 1.
  destruct (create_vector_store w s) as [[[[|]|e] s1] ev1]; [|reflexivity|reflexivity].
  cbn [negb]. cbv iota. unfold bind at 1.
  destruct (initialize_qa_chain w s1) as [[[[|]|e] s2] ev2]; [|reflexivity|reflexivity].
  cbn [negb]. cbv iota.
  destruct (ask w main_questions s2) as [[o s3] ev3]. reflexivity.
Qed.

Lemma main_run w s evs :
  __init__ w main_pdf_path None None None = (Returned s, evs) ->
  main w = (outcome (main_on w s), evs ++ events (main_on w s)).
Proof. intros Hinit. unfold main. rewrite Hinit. reflexivity. Qed.

(** X16: when the index cannot be built because the document is
    unreadable or without text, [main] returns normally: after the
    construction only the extractor has run, and the last line printed is
    "Failed to create vector store"; the environment is not read and no
    question is asked. *)
Theorem main_stops_without_index w s evs :
  __init__ w main_pdf_path None None None = (Returned s, evs) ->
  outcome (create_vector_store w s) = Returned false ->
  main w
    = (Returned tt,
       evs ++ events (extract_text_from_pdf w s)
           ++ [EvPrint "Failed to create vector store"]).
Proof.
  intros Hinit Hfalse. rewrite (main_run w s evs Hinit), main_on_run.
  rewrite create_vector_store_run in Hfalse |- *.
  destruct (outcome (extract_text_from_pdf w s)) as [[text|]|e];
    [|reflexivity|discriminate].
  destruct (String.eqb text ""); [reflexivity|].
  destruct (split_text w (text_splitter s) text) as [e|texts]; [discriminate|].
  destruct (from_texts w texts (embeddings s)); discriminate.
Qed.

Lemma main_stops_without_index_witness :
  main demo_world
    = (Returned tt,
       [EvNewEmbeddings (mkEmbeddings "sentence-transformers/all-MiniLM-L6-v2");
        EvNewSplitter (mkSplitter 1000 200);
        EvOpenPdf main_pdf_path;
        EvPrint "Error reading PDF: No such file or directory";
        EvPrint "Failed to create vector store"]).
Proof.
  exact (main_stops_without_index demo_world (fresh main_pdf_path)
           [EvNewEmbeddings (mkEmbeddings "sentence-transformers/all-MiniLM-L6-v2");
            EvNewSplitter (mkSplitter 1000 200)]
           eq_refl eq_refl).
Defined.

(** X17: when the index is built and [initialize_qa_chain] returns
    [False] (no key, or the model's constructor failed), [main] returns
    normally after printing "Failed to initialize QA chain", and asks no
    question. *)
Theorem main_stops_without_chain w s evs :
  __init__ w main_pdf_path None None None = (Returned s, evs) ->
  outcome (create_vector_store w s) = Returned true ->
  outcome (initialize_qa_chain w (self_after (create_vector_store w s)))
    = Returned false ->
  main w
    = (Returned tt,
       evs ++ events (create_vector_store w s)
           ++ events (initialize_qa_chain w (self_after (create_vector_store w s)))
           ++ [EvPrint "Failed to initialize QA chain"])
  /\ no_event is_run_event
       (events (initialize_qa_chain w (self_after (create_vector_store w s)))) = true.
Proof.
  intros Hinit Htrue Hfalse. rewrite (main_run w s evs Hinit), main_on_run.
  destruct (create_vector_store w s) as [[o1 s1] ev1].
  cbn [outcome self_after events fst snd] in *. subst o1.
  assert (no_event is_run_event (events (initialize_qa_chain w s1)) = true) as Hnorun.
  { revert Hfalse. initialize_cases w s1.
    - destruct (new_ChatGroq w (groq_model key)) as [e|];
        [destruct (is_Exception e); [|discriminate]
        |destruct (from_chain_type w (chain_over vs key)); discriminate].
      intros _. unfold events. simpl. unfold no_event. rewrite forallb_app.
      destruct (truthy (groq_api_key s1)); reflexivity.
    - reflexivity.
    - reflexivity. }
  destruct (initialize_qa_chain w s1) as [[o2 s2] ev2].
  cbn [outcome self_after events fst snd] in *. subst o2.
  split; [reflexivity|exact Hnorun].
Qed.

Lemma main_stops_without_chain_witness :
  main (with_environ ∅ main_world)
    = (Returned tt,
       [EvNewEmbeddings (mkEmbeddings "sentence-transformers/all-MiniLM-L6-v2");
        EvNewSplitter (mkSplitter 1000 200);
        EvOpenPdf main_pdf_path; EvExtractText 0; EvExtractText 1;
        EvSplitText (mkSplitter 1000 200)
          "Machine translation converts text between languages. It can be rule-based, statistical, or neural.";
        EvFromTexts
          ["Machine translation converts text between languages. It can be rule-based, statistical, or neural."]
          (mkEmbeddings "sentence-transformers/all-MiniLM-L6-v2");
        EvEnvironGet KEY;
        EvPrint ("Error initializing Groq LLM: " ++ missing_key_msg);
        EvPrint "Failed to initialize QA chain"]).
Proof.
  exact (proj1 (main_stops_without_chain (with_environ ∅ main_world)
                  (fresh main_pdf_path)
                  [EvNewEmbeddings
                     (mkEmbeddings "sentence-transformers/all-MiniLM-L6-v2");
                   EvNewSplitter (mkSplitter 1000 200)]
                  eq_refl eq_refl eq_refl)).
Defined.

(** X18: when the index is built and the chain initialized, and each of
    the two runs returns or fails with an instance of [Exception], [main]
    asks its two questions, each once and in order, on the chain just
    set, and returns normally; what it prints for a question is the error
    of a failed run, nothing for an empty answer, and otherwise a "Q:"
    line and an "A:" line. *)
Theorem main_asks_both_questions w s evs :
  __init__ w main_pdf_path None None None = (Returned s, evs) ->
  outcome (create_vector_store w s) = Returned true ->
  outcome (initialize_qa_chain w (self_after (create_vector_store w s)))
    = Returned true ->
  exists chain,
    qa_chain (self_after (initialize_qa_chain w (self_after (create_vector_store w s))))
      = Some chain
    /\ (forallb (survives w chain) main_questions = true ->
        main w
        = (Returned tt,
           evs ++ events (create_vector_store w s)
               ++ events (initialize_qa_chain w (self_after (create_vector_store w s)))
               ++ [EvRun chain "What is the main topic of the document?"]
               ++ map EvPrint
                    (question_lines w chain "What is the main topic of the document?")
               ++ [EvRun chain "Summarize the key points."]
               ++ map EvPrint (question_lines w chain "Summarize the key points."))).
Proof.
  intros Hinit Hbuilt Hready. rewrite (main_run w s evs Hinit), main_on_run.
  destruct (create_vector_store w s) as [[o1 s1] ev1].
  cbn [outcome self_after events fst snd] in *. subst o1.
  destruct (initialize_qa_chain_cases w s1)
    as [[_ (vs & key & _ & _ & _ & Hself)]|[[Hfalse|[e He]] _]];
    [|rewrite Hready in Hfalse; discriminate|rewrite Hready in He; discriminate].
  destruct (initialize_qa_chain w s1) as [[o2 s2] ev2].
  cbn [outcome self_after events fst snd] in *. subst o2 s2.
  exists (chain_over vs key). split; [reflexivity|]. intros Hsurvive.
  pose proof (ask_run w main_questions
                (set_qa_chain (Some (chain_over vs key)) s1) (chain_over vs key)
                eq_refl Hsurvive) as Hask.
  unfold chain_over in Hask. rewrite Hask.
  cbn [outcome events fst snd main_questions flat_map].
  rewrite app_nil_r. reflexivity.
Qed.

Lemma main_asks_both_questions_witness :
  exists chain,
    main main_world
    = (Returned tt,
       [EvNewEmbeddings (mkEmbeddings "sentence-transformers/all-MiniLM-L6-v2");
        EvNewSplitter (mkSplitter 1000 200)]
         ++ events (create_vector_store main_world (fresh main_pdf_path))
         ++ events (initialize_qa_chain main_world
                      (self_after (create_vector_store main_world (fresh main_pdf_path))))
         ++ [EvRun chain "What is the main topic of the document?";
             EvPrint "Error processing query: rate limit exceeded";
             EvRun chain "Summarize the key points.";
             EvPrint (nl ++ "Q: Summarize the key points.");
             EvPrint "A: Machine translation."]).
Proof.
  destruct (main_asks_both_questions main_world (fresh main_pdf_path)
              [EvNewEmbeddings (mkEmbeddings "sentence-transformers/all-MiniLM-L6-v2");
               EvNewSplitter (mkSplitter 1000 200)]
              eq_refl eq_refl eq_refl) as (chain & Hchain & Hmain).
  exists chain. injection Hchain as <-. rewrite (Hmain eq_refl). reflexivity.
Defined.

Lemma filter_run_prints (lines : list string) (rest : list Event) :
  List.filter is_run_event (map EvPrint lines ++ rest) = List.filter is_run_event rest.
Proof. induction lines as [|l lines IH]; simpl; [reflexivity|exact IH]. Qed.

Lemma filter_print_prints (lines : list string) (rest : list Event) :
  List.filter is_print_event (map EvPrint lines ++ rest)
    = map EvPrint lines ++ List.filter is_print_event rest.
Proof. induction lines as [|l lines IH]; simpl; [reflexivity|rewrite IH; reflexivity]. Qed.

Lemma filter_run_turns w chain (questions : list string) (rest : list Event) :
  List.filter is_run_event
    (flat_map (fun question =>
                 EvRun chain question :: map EvPrint (question_lines w chain question))
              questions ++ rest)
    = map (EvRun chain) questions ++ List.filter is_run_event rest.
Proof.
  induction questions as [|question more IH]; [reflexivity|].
  cbn [flat_map map]. rewrite <- app_assoc. simpl.
  rewrite filter_run_prints, IH. reflexivity.
Qed.

Lemma filter_print_turns w chain (questions : list string) (rest : list Event) :
  List.filter is_print_event
    (flat_map (fun question =>
                 EvRun chain question :: map EvPrint (question_lines w chain question))
              questions ++ rest)
    = map EvPrint (flat_map (question_lines w chain) questions)
      ++ List.filter is_print_event rest.
Proof.
  induction questions as [|question more IH]; [reflexivity|].
  cbn [flat_map map]. rewrite <- app_assoc. simpl.
  rewrite filter_print_prints, IH, map_app, <- app_assoc. reflexivity.
Qed.

(** X19: the question loop of [main], on an object with a chain, assigns
    no field and runs the questions in order, each at most once.  When
    every run returns or fails with an instance of [Exception], the loop
    goes through every question, also after one that failed, and
    returns; the lines printed are, question by question, the error of a
    failed run, nothing for an empty answer, and a "Q:" and an "A:" line
    otherwise.  When a run raises anything else, the loop stops there:
    that exception leaves it, nothing is printed for that question, and
    the questions after it are never asked. *)
Theorem ask_goes_through_every_question w questions s chain :
  qa_chain s = Some chain ->
  (forallb (survives w chain) questions = true ->
   outcome (ask w questions s) = Returned tt
   /\ self_after (ask w questions s) = s
   /\ List.filter is_run_event (events (ask w questions s))
      = map (EvRun chain) questions
   /\ List.filter is_print_event (events (ask w questions s))
      = map EvPrint (flat_map (question_lines w chain) questions))
  /\ (forall before question after e,
        questions = before ++ question :: after ->
        forallb (survives w chain) before = true ->
        chain_run w chain question = inl e ->
        is_Exception e = false ->
        outcome (ask w questions s) = Raised e
        /\ self_after (ask w questions s) = s
        /\ List.filter is_run_event (events (ask w questions s))
           = map (EvRun chain) (before ++ [question])
        /\ List.filter is_print_event (events (ask w questions s))
           = map EvPrint (flat_map (question_lines w chain) before)).
Proof.
  intros Hchain. split.
  - intros Hall. rewrite (ask_run w questions s chain Hchain Hall).
    cbn [outcome self_after events fst snd]. repeat split.
    + rewrite <- (app_nil_r (flat_map _ questions)), filter_run_turns.
      apply app_nil_r.
    + rewrite <- (app_nil_r (flat_map _ questions)), filter_print_turns.
      apply app_nil_r.
  - intros before question after e -> Hall Hrun Hclass.
    rewrite (ask_interrupted w before question after s chain e Hchain Hall Hrun Hclass).
    cbn [outcome self_after events fst snd]. repeat split.
    + rewrite filter_run_turns, map_app. reflexivity.
    + rewrite filter_print_turns. apply app_nil_r.
Qed.

Lemma ask_goes_through_every_question_witness :
  exists chain,
    (List.filter is_run_event (events (ask demo_world [""; "Summarize."; ""] ready))
       = [EvRun chain ""; EvRun chain "Summarize."; EvRun chain ""]
     /\ List.filter is_print_event (events (ask demo_world [""; "Summarize."; ""] ready))
        = [EvPrint "Error processing query: rate limit exceeded";
           EvPrint (nl ++ "Q: Summarize.");
           EvPrint "A: Machine translation.";
           EvPrint "Error processing query: rate limit exceeded"])
    /\ outcome (ask interrupted_world ["first"; "second"] ready)
       = Raised KeyboardInterrupt
    /\ List.filter is_run_event (events (ask interrupted_world ["first"; "second"] ready))
       = [EvRun chain "first"].
Proof.
  eexists. split.
  - destruct (ask_goes_through_every_question demo_world [""; "Summarize."; ""] ready _
                eq_refl) as [Hall _].
    destruct (Hall eq_refl) as (_ & _ & Hruns & Hprints).
    split; [exact Hruns|exact Hprints].
  - destruct (ask_goes_through_every_question interrupted_world ["first"; "second"]
                ready _ eq_refl) as [_ Hstop].
    destruct (Hstop [] "first" ["second"] KeyboardInterrupt
                eq_refl eq_refl eq_refl eq_refl) as (Hraised & _ & Hruns & _).
    split; [exact Hraised|exact Hruns].
Defined.

Lemma main_on_raises_iff w s e :
  outcome (main_on w s) = Raised e
  <-> outcome (create_vector_store w s) = Raised e
      \/ (outcome (create_vector_store w s) = Returned true
          /\ outcome (initialize_qa_chain w (self_after (create_vector_store w s)))
             = Raised e)
      \/ (outcome (create_vector_store w s) = Returned true
          /\ outcome (initialize_qa_chain w (self_after (create_vector_store w s)))
             = Returned true
          /\ outcome (ask w main_questions
                        (self_after
                           (initialize_qa_chain w
                              (self_after (create_vector_store w s)))))
             = Raised e).
Proof.
  rewrite main_on_run.
  destruct (create_vector_store w s) as [[[[|]|e1] s1] ev1];
    cbn [outcome self_after fst snd].
  - destruct (initialize_qa_chain w s1) as [[[[|]|e2] s2] ev2];
      cbn [outcome self_after fst snd].
    + split.
      * intros H. right. right. auto.
      * intros [H|[[_ H]|(_ & _ & H)]]; [discriminate|discriminate|exact H].
    + split; [discriminate|].
      intros [H|[[_ H]|(_ & H & _)]]; discriminate.
    + split.
      * intros [= ->]. right. left. split; reflexivity.
      * intros [H|[[_ H]|(_ & H & _)]]; [discriminate| |discriminate].
        injection H as ->. reflexivity.
  - split; [discriminate|].
    intros [H|[[H _]|(H & _)]]; discriminate.
  - split.
    + intros [= ->]. left. reflexivity.
    + intros [H|[[H _]|(H & _)]]; [|discriminate|discriminate].
      injection H as ->. reflexivity.
Qed.

Lemma create_vector_store_raise_source w s e :
  outcome (create_vector_store w s) = Raised e ->
  (extraction_failure w (pdf_path s) = Some e /\ is_Exception e = false)
  \/ exists text,
       outcome (extract_text_from_pdf w s) = Returned (Some text)
       /\ (split_text w (text_splitter s) text = inl e
           \/ exists texts,
                split_text w (text_splitter s) text = inr texts
                /\ from_texts w texts (embeddings s) = Some e).
Proof.
  rewrite <- (extract_text_raised w s e). rewrite create_vector_store_run.
  destruct (outcome (extract_text_from_pdf w s)) as [[text|]|e0];
    [|discriminate|intros [= ->]; left; reflexivity].
  destruct (String.eqb text ""); [discriminate|].
  destruct (split_text w (text_splitter s) text) as [e'|texts] eqn:Hsplit.
  - intros [= ->]. right. exists text. auto.
  - destruct (from_texts w texts (embeddings s)) as [e'|] eqn:Hindex; [|discriminate].
    intros [= ->]. right. exists text. split; [reflexivity|]. right.
    exists texts. rewrite Hsplit. auto.
Qed.

Lemma initialize_raise_source w s e :
  outcome (initialize_qa_chain w s) = Raised e ->
  exists vs key,
    vector_store s = Some vs
    /\ resolved_key w s = Some key
    /\ ((new_ChatGroq w (groq_model key) = Some e /\ is_Exception e = false)
        \/ (new_ChatGroq w (groq_model key) = None
            /\ from_chain_type w (chain_over vs key) = Some e)).
Proof.
  initialize_cases w s; try discriminate.
  destruct (new_ChatGroq w (groq_model key)) as [e1|] eqn:Hllm.
  - destruct (is_Exception e1) eqn:Hclass; [discriminate|].
    intros [= <-]. exists vs, key. auto.
  - destruct (from_chain_type w (chain_over vs key)) as [e2|] eqn:Hchain;
      [|discriminate].
    intros [= <-]. exists vs, key. auto.
Qed.

(** X20: once [main] has constructed its object, an exception leaves
    [main] exactly when it leaves [create_vector_store]; or the index is
    built and it leaves [initialize_qa_chain]; or both returned [True]
    and a question's run, the earlier runs having returned or failed with
    instances of [Exception], raises it and it is not an instance of
    [Exception].  So an instance of [Exception] that leaves [main] was
    raised in this run by the splitter on the extracted text, by the
    index builder on the splitter's chunks, or by the constructor of the
    chain on the chain over the built store with the resolved key: never
    by reading the document, by the model's constructor or by a
    question. *)
Theorem main_raises_iff w s evs e :
  __init__ w main_pdf_path None None None = (Returned s, evs) ->
  (fst (main w) = Raised e
   <-> outcome (create_vector_store w s) = Raised e
       \/ (outcome (create_vector_store w s) = Returned true
           /\ outcome (initialize_qa_chain w (self_after (create_vector_store w s)))
              = Raised e)
       \/ (outcome (create_vector_store w s) = Returned true
           /\ outcome (initialize_qa_chain w (self_after (create_vector_store w s)))
              = Returned true
           /\ exists chain before question after,
                qa_chain (self_after
                            (initialize_qa_chain w
                               (self_after (create_vector_store w s))))
                  = Some chain
                /\ main_questions = before ++ question :: after
                /\ forallb (survives w chain) before = true
                /\ chain_run w chain question = inl e
                /\ is_Exception e = false))
  /\ (fst (main w) = Raised e ->
      is_Exception e = true ->
      (exists text,
         outcome (extract_text_from_pdf w s) = Returned (Some text)
         /\ (split_text w (text_splitter s) text = inl e
             \/ exists texts,
                  split_text w (text_splitter s) text = inr texts
                  /\ from_texts w texts (embeddings s) = Some e))
      \/ (outcome (create_vector_store w s) = Returned true
          /\ exists vs key,
               vector_store (self_after (create_vector_store w s)) = Some vs
               /\ resolved_key w (self_after (create_vector_store w s)) = Some key
               /\ new_ChatGroq w (groq_model key) = None
               /\ from_chain_type w (chain_over vs key) = Some e)).
Proof.
  intros Hinit. rewrite (main_run w s evs Hinit). cbn [fst].
  rewrite main_on_raises_iff.
  assert (outcome (initialize_qa_chain w (self_after (create_vector_store w s)))
            = Returned true ->
          exists chain,
            qa_chain (self_after
                        (initialize_qa_chain w (self_after (create_vector_store w s))))
              = Some chain) as Hset.
  { intros Htrue.
    destruct (initialize_qa_chain_cases w (self_after (create_vector_store w s)))
      as [[_ (vs & key & _ & _ & _ & ->)]|[[Hfalse|[e' He]] _]];
      [eexists; reflexivity
      |rewrite Htrue in Hfalse; discriminate|rewrite Htrue in He; discriminate]. }
  split.
  - split.
    + intros [H|[H|(Hbuilt & Hready & Hask)]]; [left; exact H|right; left; exact H|].
      right. right. split; [exact Hbuilt|]. split; [exact Hready|].
      destruct (Hset Hready) as [chain Hchain]. exists chain.
      destruct (proj1 (ask_raises_iff w main_questions _ chain e Hchain) Hask)
        as (before & question & after & Hsplit & Hall & Hrun & Hclass).
      exists before, question, after. auto.
    + intros [H|[H|(Hbuilt & Hready & chain & before & question & after
                    & Hchain & Hsplit & Hall & Hrun & Hclass)]];
        [left; exact H|right; left; exact H|].
      right. right. split; [exact Hbuilt|]. split; [exact Hready|].
      apply (ask_raises_iff w main_questions _ chain e Hchain).
      exists before, question, after. auto.
  - intros [Hcreate|[(Hbuilt & Hinitialize)|(Hbuilt & Hready & Hask)]] Hclass.
    + destruct (create_vector_store_raise_source w s e Hcreate)
        as [[_ Hnot]|Hsource]; [rewrite Hclass in Hnot; discriminate|].
      left. exact Hsource.
    + destruct (initialize_raise_source w _ e Hinitialize)
        as (vs & key & Hvs & Hkey & [[_ Hnot]|[Hllm Hchain]]);
        [rewrite Hclass in Hnot; discriminate|].
      right. split; [exact Hbuilt|]. exists vs, key. auto.
    + destruct (Hset Hready) as [chain Hchain].
      destruct (proj1 (ask_raises_iff w main_questions _ chain e Hchain) Hask)
        as (_ & _ & _ & _ & _ & _ & Hnot).
      rewrite Hclass in Hnot. discriminate.
Qed.

Lemma main_raises_iff_witness :
  fst (main failing_world) = Raised (mkException "ValueError" "cannot split")
  /\ fst (main interrupted_main_world) = Raised KeyboardInterrupt.
Proof.
  split.
  - apply (proj1 (main_raises_iff failing_world (fresh main_pdf_path)
                    [EvNewEmbeddings
                       (mkEmbeddings "sentence-transformers/all-MiniLM-L6-v2");
                     EvNewSplitter (mkSplitter 1000 200)]
                    (mkException "ValueError" "cannot split") eq_refl)).
    left. reflexivity.
  - apply (proj1 (main_raises_iff interrupted_main_world (fresh main_pdf_path)
                    [EvNewEmbeddings
                       (mkEmbeddings "sentence-transformers/all-MiniLM-L6-v2");
                     EvNewSplitter (mkSplitter 1000 200)]
                    KeyboardInterrupt eq_refl)).
    right. right. split; [reflexivity|]. split; [reflexivity|].
    eexists _, [], "What is the main topic of the document?",
            ["Summarize the key points."].
    repeat split.
Defined.

(** ** The Colab cell *)

Lemma colab_cell_run c env :
  colab_cell c env
    = match import_userdata c with
      | Some e => (if is_ImportError c e then Returned tt else Raised e, env)
      | None =>
          match userdata_get c KEY with
          | inl e => (if is_ImportError c e then Returned tt else Raised e, env)
          | inr value => (Returned tt, <[KEY := value]> env)
          end
      end.
Proof.
  unfold colab_cell. fold KEY.
  destruct (import_userdata c) as [e|].
  - destruct (is_ImportError c e); reflexivity.
  - destruct (userdata_get c KEY) as [e|value]; [|reflexivity].
    destruct (is_ImportError c e); reflexivity.
Qed.

(** X21: the Colab cell touches no environment variable but
    GROQ_API_KEY, and that one only when the import succeeds and the
    secret is read, in which case the cell returns and the variable holds
    the secret.  When the import raises, or the import succeeds and the
    read raises, the environment is what it was, and the cell returns if
    the exception is an ImportError and lets it out if not; an exception
    that leaves the cell is one of those two. *)
Theorem colab_cell_sets_only_the_key c env :
  (forall name, name <> KEY -> snd (colab_cell c env) !! name = env !! name)
  /\ (snd (colab_cell c env) = env
      \/ exists value,
           import_userdata c = None
           /\ userdata_get c KEY = inr value
           /\ colab_cell c env = (Returned tt, <[KEY := value]> env)
           /\ snd (colab_cell c env) !! KEY = Some value)
  /\ (forall e,
        fst (colab_cell c env) = Raised e ->
        is_ImportError c e = false
        /\ snd (colab_cell c env) = env
        /\ (import_userdata c = Some e
            \/ (import_userdata c = None /\ userdata_get c KEY = inl e)))
  /\ (forall e,
        import_userdata c = Some e ->
        colab_cell c env
          = (if is_ImportError c e then Returned tt else Raised e, env))
  /\ (forall e,
        import_userdata c = None ->
        userdata_get c KEY = inl e ->
        colab_cell c env
          = (if is_ImportError c e then Returned tt else Raised e, env)).
Proof.
  rewrite colab_cell_run.
  destruct (import_userdata c) as [e0|] eqn:Himport.
  - split; [reflexivity|]. split; [left; reflexivity|]. split; [|split].
    + intros e. destruct (is_ImportError c e0) eqn:Hclass; [discriminate|].
      intros [= <-]. split; [exact Hclass|]. split; [reflexivity|]. left. reflexivity.
    + intros e [= <-]. reflexivity.
    + intros e Hnone. discriminate.
  - destruct (userdata_get c KEY) as [e0|value] eqn:Hget.
    + split; [reflexivity|]. split; [left; reflexivity|]. split; [|split].
      * intros e. destruct (is_ImportError c e0) eqn:Hclass; [discriminate|].
        intros [= <-]. split; [exact Hclass|]. split; [reflexivity|].
        right. split; reflexivity.
      * intros e Hsome. discriminate.
      * intros e _ [= <-]. reflexivity.
    + split; [|split; [|split; [|split]]].
      * intros name Hne. simpl. apply lookup_insert_ne. congruence.
      * right. exists value. repeat split. simpl. apply lookup_insert_eq.
      * intros e. discriminate.
      * intros e Hsome. discriminate.
      * intros e _ Hfail. discriminate.
Qed.

(** X22: in Colab, a non-empty secret is the key the model gets: run the
    cell, then [initialize_qa_chain] on an object with its index built
    and no key of its own, and the model is constructed with the secret,
    whatever the variable held before the cell. *)
Theorem colab_secret_reaches_the_model c w s vs value :
  import_userdata c = None ->
  userdata_get c KEY = inr value ->
  value <> "" ->
  vector_store s = Some vs ->
  truthy (groq_api_key s) = false ->
  exists rest,
    events (initialize_qa_chain (with_environ (snd (colab_cell c (environ w))) w) s)
      = EvEnvironGet KEY :: EvNewChatGroq (groq_model value) :: rest.
Proof.
  intros Himport Hget Hne Hvs Hfield.
  apply (initialize_with_environ_key _ s vs value Hvs Hfield); [|exact Hne].
  rewrite colab_cell_run, Himport, Hget. simpl. apply lookup_insert_eq.
Qed.

Lemma colab_secret_reaches_the_model_witness :
  exists rest,
    events (initialize_qa_chain
              (with_environ (snd (colab_cell in_colab (environ demo_world))) demo_world)
              built)
      = EvEnvironGet KEY :: EvNewChatGroq (groq_model "gsk_colab") :: rest.
Proof.
  apply (colab_secret_reaches_the_model in_colab demo_world built
           (mkFAISS
              ["Machine translation converts text between languages. It can be rule-based, statistical, or neural."]
              (mkEmbeddings "sentence-transformers/all-MiniLM-L6-v2"))
           "gsk_colab");
    [reflexivity|reflexivity|discriminate|reflexivity|reflexivity].
Defined.

(** X23: in Colab, an empty secret hides a key that was in the
    environment: after the cell the variable is the empty string, and
    [initialize_qa_chain] on an object with no key of its own stops on
    the missing-key message and returns [False], whatever the variable
    held before the cell. *)
Theorem empty_colab_secret_hides_the_key c w s vs :
  import_userdata c = None ->
  userdata_get c KEY = inr "" ->
  vector_store s = Some vs ->
  truthy (groq_api_key s) = false ->
  initialize_qa_chain (with_environ (snd (colab_cell c (environ w))) w) s
    = (Returned false, s,
       [EvEnvironGet KEY; EvPrint ("Error initializing Groq LLM: " ++ missing_key_msg)]).
Proof.
  intros Himport Hget Hvs Hfield.
  apply (initialize_without_key _ s vs Hvs Hfield).
  rewrite colab_cell_run, Himport, Hget. simpl.
  rewrite lookup_insert_eq. reflexivity.
Qed.

Lemma empty_colab_secret_hides_the_key_witness :
  environ demo_world !! KEY = Some "gsk_demo"
  /\ initialize_qa_chain
       (with_environ
          (snd (colab_cell (mkColab None (fun _ => inr "") (fun _ => false))
                           (environ demo_world)))
          demo_world)
       built
     = (Returned false, built,
        [EvEnvironGet KEY; EvPrint ("Error initializing Groq LLM: " ++ missing_key_msg)]).
Proof.
  split; [reflexivity|].
  apply (empty_colab_secret_hides_the_key
           (mkColab None (fun _ => inr "") (fun _ => false)) demo_world built
           (mkFAISS
              ["Machine translation converts text between languages. It can be rule-based, statistical, or neural."]
              (mkEmbeddings "sentence-transformers/all-MiniLM-L6-v2")));
    reflexivity.
Defined.
